(** * ufobeep: the real-time layer of the sighting platform

    A shallow embedding of the server code that the specification's claims
    are about: the spam detector of [middleware/rateLimiting.ts], the socket
    handshake of [middleware/auth.ts], the handlers of the Socket.IO service
    ([services/socketService.ts]), the REST chat controller
    ([controllers/chatController.ts]), the proximity notifier
    ([services/notificationService.ts]) and the SQL distance functions of the
    database initialisation script.

    Conventions.
    - A JavaScript string is a [string]; each character is one code unit.
    - A point in time is a [Z], milliseconds since the epoch ([Date.now()]).
    - A number that arrives in a JSON payload or sits in a [Float] column is a
      rational [Q]: every finite double is one, and JSON has no encoding of NaN.
    - A database table is the list of its rows in storage order; a Socket.IO
      room is a finite set of socket ids; a JavaScript [Map] is a [gmap]. *)

From Stdlib Require Import ZArith QArith Qabs String Ascii List Lia Reals Lra.
From stdpp Require Import gmap strings list sorting.

Import ListNotations.
#[local] Open Scope string_scope.
#[local] Open Scope list_scope.
#[local] Open Scope Z_scope.

(** ** JavaScript strings *)

Module JS.

(** One code unit as its number. *)
Definition code (c : ascii) : N := N_of_ascii c.

Definition is_upper (c : ascii) : bool := ((65 <=? code c) && (code c <=? 90))%N.
Definition is_lower (c : ascii) : bool := ((97 <=? code c) && (code c <=? 122))%N.
Definition is_digit (c : ascii) : bool := ((48 <=? code c) && (code c <=? 57))%N.

(** [\w] of a regular expression: [[A-Za-z0-9_]]. *)
Definition is_word (c : ascii) : bool :=
  is_upper c || is_lower c || is_digit c || (code c =? 95)%N.

(** [\s] of a regular expression, and what [trim] strips: tab, line feed,
    vertical tab, form feed, carriage return, space, no-break space. *)
Definition is_space (c : ascii) : bool :=
  ((9 <=? code c) && (code c <=? 13) || (code c =? 32) || (code c =? 160))%N.

(** [.] of a regular expression: anything but a line terminator. *)
Definition is_dot (c : ascii) : bool :=
  negb ((code c =? 10) || (code c =? 13))%N.

(** [String.prototype.toLowerCase], on code units below 256. *)
Definition lower_char (c : ascii) : ascii :=
  let n := code c in
  if (is_upper c
      || ((192 <=? n) && (n <=? 222) && negb (n =? 215)))%N
  then ascii_of_N (n + 32) else c.

Fixpoint toLowerCase (s : string) : string :=
  match s with
  | EmptyString => EmptyString
  | String c r => String (lower_char c) (toLowerCase r)
  end.

(** [s.length]. *)
Definition length (s : string) : Z := Z.of_nat (String.length s).

(** [s.includes(k)]. *)
Fixpoint includes (k s : string) : bool :=
  String.prefix k s ||
  match s with
  | EmptyString => false
  | String _ r => includes k r
  end.

Fixpoint drop_space (s : string) : string :=
  match s with
  | EmptyString => EmptyString
  | String c r => if is_space c then drop_space r else s
  end.

Definition rev (s : string) : string :=
  string_of_list_ascii (List.rev (list_ascii_of_string s)).

(** [s.trim()]. *)
Definition trim (s : string) : string :=
  rev (drop_space (rev (drop_space s))).

(** [(s.match(/[A-Z]/g) || []).length]. *)
Fixpoint count_upper (s : string) : Z :=
  match s with
  | EmptyString => 0
  | String c r => (if is_upper c then 1 else 0) + count_upper r
  end.

(** [s] starts with [n] copies of [c]. *)
Fixpoint repeats (c : ascii) (n : nat) (s : string) : bool :=
  match n with
  | O => true
  | S n' =>
      match s with
      | EmptyString => false
      | String d r => Ascii.eqb c d && repeats c n' r
      end
  end.

(** [/(.)\1{10,}/.test(s)]: one character and ten more copies of it. *)
Fixpoint test_repeated (s : string) : bool :=
  match s with
  | EmptyString => false
  | String c r => (is_dot c && repeats c 10 r) || test_repeated r
  end.

(** [s] starts with [n] characters that are neither [\w] nor [\s]. *)
Fixpoint specials (n : nat) (s : string) : bool :=
  match n with
  | O => true
  | S n' =>
      match s with
      | EmptyString => false
      | String c r => negb (is_word c) && negb (is_space c) && specials n' r
      end
  end.

(** [/[^\w\s]{5,}/.test(s)]. *)
Fixpoint test_special (s : string) : bool :=
  specials 5 s ||
  match s with
  | EmptyString => false
  | String _ r => test_special r
  end.

(** [/(http|https|www\.)/gi.test(s)] on a fresh regular expression (its
    [lastIndex] is 0); the [i] flag folds the ASCII letters of [s]. *)
Definition test_url (s : string) : bool :=
  includes "http" (toLowerCase s) || includes "www." (toLowerCase s).

(** A value is truthy; for a string: it is not empty. *)
Definition truthy (s : string) : bool :=
  match s with EmptyString => false | _ => true end.

(** [a || b] on optional strings ([undefined] and the empty string are falsy). *)
Definition or_else (a : option string) (b : string) : string :=
  match a with
  | Some s => if truthy s then s else b
  | None => b
  end.

(** [JSON.stringify] of a string (QuoteJSONString) and of an object whose
    properties are strings, in insertion order. *)
Definition dquote : string := String (ascii_of_N 34) EmptyString.

Definition hex_digit (n : N) : ascii :=
  if (n <? 10)%N then ascii_of_N (48 + n) else ascii_of_N (87 + n).

Definition escape_char (c : ascii) : string :=
  let n := code c in
  if (n =? 34)%N then String (ascii_of_N 92) dquote
  else if (n =? 92)%N then "\"
  else if (n =? 8)%N then "\b"
  else if (n =? 12)%N then "\f"
  else if (n =? 10)%N then "\n"
  else if (n =? 13)%N then "\r"
  else if (n =? 9)%N then "\t"
  else if (n <? 32)%N then
    "\u00" ++ String (hex_digit (n / 16)) (String (hex_digit (n mod 16)) EmptyString)
  else String c EmptyString.

Fixpoint escape (s : string) : string :=
  match s with
  | EmptyString => EmptyString
  | String c r => escape_char c ++ escape r
  end.

Definition quoteJSON (s : string) : string := dquote ++ escape s ++ dquote.

Fixpoint stringify_props (props : list (string * string)) : string :=
  match props with
  | [] => EmptyString
  | [(k, v)] => quoteJSON k ++ ":" ++ quoteJSON v
  | (k, v) :: rest => quoteJSON k ++ ":" ++ quoteJSON v ++ "," ++ stringify_props rest
  end.

Definition stringify (props : list (string * string)) : string :=
  "{" ++ stringify_props props ++ "}".

(** What a call inside a [try] block comes to. *)
Inductive Attempt (A : Type) :=
| Returns (a : A)
| Throws.
Arguments Returns {A} a.
Arguments Throws {A}.

(** [a < b] on numbers. *)
Definition lt (a b : Q) : bool := negb (Qle_bool b a).

(** A number is truthy unless it is zero. *)
Definition truthyNumber (q : Q) : bool := negb (Qeq_bool q 0).

End JS.

(** ** [middleware/rateLimiting.ts]: the spam detector *)

Module RateLimiting.

(** A row of [prisma.submissionLog]; ([ipAddress], [action], [windowStart])
    is its unique key, [createdAt] is set when the row is created. *)
Record SubmissionLog := {
  ipAddress : string;
  userAgent : string;
  action : string;
  count : Z;
  windowStart : Z;
  createdAt : Z
}.

(** What [spamDetection] reads of an Express request. [body_json] is
    [JSON.stringify(req.body)], [description] is [req.body.description]. *)
Record Request := {
  ip : option string;
  remoteAddress : option string;
  user_agent : option string;
  route_path : option string;
  path : string;
  body_json : string;
  description : option string
}.

(** How the middleware ends: the 429 response, or [next()]. *)
Inductive Outcome := Blocked429 | Next.

Definition HOUR : Z := 60 * 60 * 1000.

(** The limits of the [express-rate-limit] instances: requests per window. *)
Definition generalLimiter : Z * Z := (100, 900000).
Definition sightingSubmissionLimiter : Z * Z := (10, HOUR).
Definition chatMessageLimiter : Z * Z := (30, 60 * 1000).

Definition spamKeywords : list string :=
  [ "viagra"; "casino"; "loan"; "bitcoin"; "crypto";
    "get rich quick"; "make money fast"; "click here";
    "limited time offer"; "act now"; "free money" ].

Definition suspiciousPatterns : list (string -> bool) :=
  [ JS.test_repeated; JS.test_special; JS.test_url ].

(** The two [forEach] loops over the lower-cased body. *)
Definition keywordScore (content : string) : Z :=
  fold_left (fun score keyword =>
               if JS.includes keyword content then score + 20 else score)
            spamKeywords 0.

Definition patternScore (content : string) : Z :=
  fold_left (fun score (pattern : string -> bool) =>
               if pattern content then score + 15 else score)
            suspiciousPatterns 0.

(** [if (req.body.description) { ... }]: length and capitals of the
    description; [capsRatio > 0.5] is [2 * capitals > length]. *)
Definition descriptionScore (description : option string) : Z :=
  match description with
  | Some desc =>
      if JS.truthy desc then
        (if JS.length desc <? 10 then 10 else 0)
        + (if 5000 <? JS.length desc then 25 else 0)
        + (if JS.length desc <? 2 * JS.count_upper desc then 20 else 0)
      else 0
  | None => 0
  end.

(** The score before the frequency check. *)
Definition contentScore (req : Request) : Z :=
  let content := JS.toLowerCase (body_json req) in
  keywordScore content + patternScore content + descriptionScore (description req).

Definition ipAddressOf (req : Request) : string :=
  JS.or_else (ip req) (JS.or_else (remoteAddress req) "unknown").

Definition actionOf (req : Request) : string :=
  JS.or_else (route_path req) (path req).

(** [prisma.submissionLog.findMany]: the rows of this address created in
    the last hour. *)
Definition recentSubmissions (now : Z) (ipAddress0 : string)
    (log : list SubmissionLog) : list SubmissionLog :=
  List.filter (fun row => String.eqb (ipAddress row) ipAddress0
                          && (now - HOUR <=? createdAt row)) log.

(** [Math.floor(Date.now() / HOUR) * HOUR]. *)
Definition windowStartOf (now : Z) : Z := (now / HOUR) * HOUR.

Definition same_key (ip0 action0 : string) (ws : Z) (row : SubmissionLog) : bool :=
  String.eqb (ipAddress row) ip0 && String.eqb (action row) action0
  && (windowStart row =? ws).

(** [prisma.submissionLog.upsert]: increment the row of the key, or create
    it with count 1. *)
Definition upsert (now : Z) (ip0 ua action0 : string)
    (log : list SubmissionLog) : list SubmissionLog :=
  let ws := windowStartOf now in
  if existsb (same_key ip0 action0 ws) log then
    List.map (fun row =>
           if same_key ip0 action0 ws row then
             {| ipAddress := ipAddress row; userAgent := userAgent row;
                action := action row; count := count row + 1;
                windowStart := windowStart row; createdAt := createdAt row |}
           else row) log
  else
    log ++ [ {| ipAddress := ip0; userAgent := ua; action := action0;
                count := 1; windowStart := ws; createdAt := now |} ].

(** The score the block decision is taken on. *)
Definition spamScore (now : Z) (req : Request) (log : list SubmissionLog) : Z :=
  contentScore req
  + (if 5 <? Z.of_nat (List.length (recentSubmissions now (ipAddressOf req) log))
     then 30 else 0).

Definition blockThreshold : Z := 50.
Definition flagThreshold : Z := 30.

(** [logger.warn] of a request that is passed on as suspicious. *)
Definition suspicious (now : Z) (req : Request) (log : list SubmissionLog) : bool :=
  (flagThreshold <=? spamScore now req log)
  && negb (blockThreshold <=? spamScore now req log).

(** [spamDetection]. The source reads the clock for the query and again for
    the hour of the upsert; [now] is that one instant. [db_up = false] is a
    database call that throws, which the [catch] turns into [next()]. *)
Definition spamDetection (db_up : bool) (now : Z) (req : Request)
    (log : list SubmissionLog) : list SubmissionLog * Outcome :=
  if db_up then
    let log' := upsert now (ipAddressOf req) (JS.or_else (user_agent req) EmptyString)
                       (actionOf req) log in
    if blockThreshold <=? spamScore now req log then (log', Blocked429)
    else (log', Next)
  else (log, Next).

(** A run of requests, each with its arrival time; the outcomes in order. *)
Fixpoint run (reqs : list (Z * Request)) (log : list SubmissionLog)
  : list SubmissionLog * list Outcome :=
  match reqs with
  | [] => (log, [])
  | (now, req) :: rest =>
      let '(log1, o) := spamDetection true now req log in
      let '(log2, os) := run rest log1 in
      (log2, o :: os)
  end.

End RateLimiting.

(** ** [utils/auth.ts] and [middleware/auth.ts]: the socket handshake *)

Module Auth.

Record AuthUser := {
  id : string;
  username : option string;
  email : option string;
  isAnonymous : bool;
  isAdmin : bool
}.

Record JWTPayload := {
  userId : string;
  payload_isAnonymous : bool;
  payload_isAdmin : bool
}.

(** [getUserFromToken]: [verifyToken] throws on a bad token and the user
    lookup may throw; both end in the [catch], which returns [null]. *)
Definition getUserFromToken
    (verifyToken : string -> JS.Attempt JWTPayload)
    (findUnique : string -> JS.Attempt (option AuthUser))
    (token : string) : option AuthUser :=
  match verifyToken token with
  | JS.Returns payload =>
      match findUnique (userId payload) with
      | JS.Returns user => user
      | JS.Throws => None
      end
  | JS.Throws => None
  end.

(** The socket as the middleware sees and leaves it. *)
Record Handshake := {
  socket_id : string;
  auth_token : option string    (* socket.handshake.auth?.token *)
}.

(** What the middleware passes on: [next()] accepts the connection,
    [next(err)] refuses it. *)
Inductive Verdict := Accept | Refuse (err : string).

Record Authenticated := {
  user : AuthUser;
  isAuthenticated : bool;
  verdict : Verdict
}.

Definition anonymousUser (h : Handshake) : AuthUser :=
  {| id := "anonymous_" ++ socket_id h;
     username := None; email := None;
     isAnonymous := true; isAdmin := false |}.

Definition anonymousSocket (h : Handshake) : Authenticated :=
  {| user := anonymousUser h; isAuthenticated := false; verdict := Accept |}.

(** [socketAuth]; [lookup] is the awaited [getUserFromToken(token)], which
    the surrounding [try] lets throw. *)
Definition socketAuth (lookup : string -> JS.Attempt (option AuthUser))
    (h : Handshake) : Authenticated :=
  match auth_token h with
  | Some token =>
      if JS.truthy token then
        match lookup token with
        | JS.Returns (Some u) =>
            {| user := u; isAuthenticated := true; verdict := Accept |}
        | JS.Returns None => anonymousSocket h
        | JS.Throws => anonymousSocket h
        end
      else anonymousSocket h
  | None => anonymousSocket h
  end.

End Auth.

(** ** The database tables the real-time layer reads and writes *)

Module Db.

Record Sighting := {
  sighting_id : string;
  title : string;
  sighting_isHidden : bool;
  latitude : Q;
  longitude : Q;
  sighting_createdAt : Z
}.

Record User := {
  user_id : string;
  username : option string;
  isAnonymous : bool;
  enableNotifications : bool;
  lastLatitude : option Q;
  lastLongitude : option Q;
  lastLocationUpdate : option Z;
  notificationRadius : Q
}.

Record ChatMessage := {
  message_id : string;
  message : string;
  sightingId : string;
  userId : option string;
  anonymousName : option string;
  ipAddress : string;
  isHidden : bool;
  createdAt : Z
}.

(** [select: { id, username, isAnonymous }] of the related user, or the
    object a handler substitutes for an anonymous author. *)
Record UserSummary := {
  summary_id : option string;
  summary_username : option string;
  summary_isAnonymous : bool
}.

(** [prisma.sighting.findUnique({ where: { id } })]. *)
Definition findSighting (sightings : list Sighting) (id : string) : option Sighting :=
  List.find (fun s => String.eqb (sighting_id s) id) sightings.

(** [prisma.user.findUnique({ where: { id } })]. *)
Definition findUser (users : list User) (id : string) : option User :=
  List.find (fun u => String.eqb (user_id u) id) users.

(** [!sighting || sighting.isHidden]. *)
Definition missingOrHidden (sightings : list Sighting) (id : string) : bool :=
  match findSighting sightings id with
  | Some s => sighting_isHidden s
  | None => true
  end.

Definition summaryOf (u : User) : UserSummary :=
  {| summary_id := Some (user_id u);
     summary_username := username u;
     summary_isAnonymous := isAnonymous u |}.

(** [include: { user: { select: ... } }]: the related user of a message. *)
Definition includeUser (users : list User) (m : ChatMessage) : option UserSummary :=
  match userId m with
  | Some uid => summaryOf <$> findUser users uid
  | None => None
  end.

(** [prisma.chatMessage.create]: the row is appended with a fresh id and the
    current time; a [userId] that names no user violates the relation, and
    the call throws ([None]). *)
Definition createChatMessage (users : list User) (messages : list ChatMessage)
    (new_id : string) (now : Z)
    (text sighting : string) (author : option string) (name : option string)
    (ip : string) : option (list ChatMessage * ChatMessage) :=
  let row := {| message_id := new_id; message := text; sightingId := sighting;
                userId := author; anonymousName := name; ipAddress := ip;
                isHidden := false; createdAt := now |} in
  match author with
  | Some uid =>
      match findUser users uid with
      | Some _ => Some (messages ++ [row], row)
      | None => None
      end
  | None => Some (messages ++ [row], row)
  end.

(** [orderBy: { createdAt: 'desc' }]. *)
Definition newerFirst (a b : ChatMessage) : Prop := createdAt b <= createdAt a.

#[export] Instance newerFirst_dec a b : Decision (newerFirst a b).
Proof. unfold newerFirst. apply _. Defined.

(** [prisma.chatMessage.findMany] with [where: { sightingId, isHidden:
    false }], [orderBy: { createdAt: 'desc' }] and [take]. *)
Definition findMessages (messages : list ChatMessage) (sighting : string)
    (take : nat) : list ChatMessage :=
  List.firstn take
    (merge_sort newerFirst
       (List.filter (fun m => String.eqb (sightingId m) sighting
                              && negb (isHidden m)) messages)).

(** [prisma.user.update({ where: { id }, data: { lastLatitude,
    lastLongitude, lastLocationUpdate } })]; it throws ([None]) when no user
    has the id. *)
Definition updateLocation (users : list User) (id : string) (lat lon : Q)
    (now : Z) : option (list User) :=
  match findUser users id with
  | Some _ =>
      Some (List.map (fun u =>
              if String.eqb (user_id u) id then
                {| user_id := user_id u; username := username u;
                   isAnonymous := isAnonymous u;
                   enableNotifications := enableNotifications u;
                   lastLatitude := Some lat; lastLongitude := Some lon;
                   lastLocationUpdate := Some now;
                   notificationRadius := notificationRadius u |}
              else u) users)
  | None => None
  end.

End Db.

(** ** [services/socketService.ts]: the Socket.IO service *)

Module SocketService.
Import Db.

Record SocketUser := {
  id : string;
  socket_username : option string;
  socket_isAnonymous : bool;
  isAdmin : bool
}.

Record CustomSocket := {
  socket_id : string;
  user : SocketUser;
  isAuthenticated : bool;
  address : string                (* socket.handshake.address *)
}.

(** A value of a JSON payload. *)
Inductive JSON :=
| JUndefined
| JNull
| JBoolean (b : bool)
| JNumber (q : Q)
| JString (s : string)
| JObject.

(** [typeof v === 'number']. *)
Definition asNumber (v : JSON) : option Q :=
  match v with JNumber q => Some q | _ => None end.

Record ChatMessageData := {
  data_sightingId : string;
  data_message : string;
  data_anonymousName : option string
}.

Record LocationUpdateData := {
  data_latitude : JSON;
  data_longitude : JSON
}.

(** The entry of a sighting in a [nearby_sightings] event; the source sends
    the distance with two decimals. *)
Record NearbyEntry := {
  nearby_id : string;
  nearby_title : string;
  nearby_distance : Q;
  nearby_createdAt : Z
}.

(** The payload of a [notification] event of the proximity notifier; the
    source sends the distance with one decimal. *)
Record Notification := {
  notification_type : string;
  notification_id : string;
  notification_title : string;
  notification_sightingId : string;
  notification_sightingTitle : string;
  notification_distance : Q
}.

(** The events the server emits. *)
Inductive Event :=
| error (message : string)
| user_joined (userId username : string) (isAnonymous : bool)
| user_left (userId username : string)
| chat_history (sightingId : string)
    (messages : list (ChatMessage * option UserSummary))
| new_chat_message (id message : string) (createdAt : Z)
    (author : UserSummary) (sightingId : string)
| user_typing (userId username : string) (isAnonymous : bool)
| user_stopped_typing (userId : string)
| location_updated (message : string) (latitude longitude : Q)
| nearby_sightings (sightings : list NearbyEntry)
| notification (payload : Notification).

(** The database, the Socket.IO adapter (room name to member socket ids),
    the service's [connectedUsers] map, and every event sent so far with the
    socket it went to, oldest first. *)
Record State := {
  sightings : list Sighting;
  chatMessages : list ChatMessage;
  users : list User;
  rooms : gmap string (gset string);
  connectedUsers : gmap string CustomSocket;
  sent : list (string * Event)
}.

Definition set_rooms (r : gmap string (gset string)) (st : State) : State :=
  {| sightings := sightings st; chatMessages := chatMessages st;
     users := users st; rooms := r;
     connectedUsers := connectedUsers st; sent := sent st |}.

Definition set_connectedUsers (c : gmap string CustomSocket) (st : State) : State :=
  {| sightings := sightings st; chatMessages := chatMessages st;
     users := users st; rooms := rooms st;
     connectedUsers := c; sent := sent st |}.

Definition set_chatMessages (ms : list ChatMessage) (st : State) : State :=
  {| sightings := sightings st; chatMessages := ms;
     users := users st; rooms := rooms st;
     connectedUsers := connectedUsers st; sent := sent st |}.

Definition set_users (us : list User) (st : State) : State :=
  {| sightings := sightings st; chatMessages := chatMessages st;
     users := us; rooms := rooms st;
     connectedUsers := connectedUsers st; sent := sent st |}.

Definition deliver (out : list (string * Event)) (st : State) : State :=
  {| sightings := sightings st; chatMessages := chatMessages st;
     users := users st; rooms := rooms st;
     connectedUsers := connectedUsers st; sent := sent st ++ out |}.

(** *** Socket.IO *)

Definition members (st : State) (room : string) : gset string :=
  default ∅ (rooms st !! room).

(** [socket.join(room)]. *)
Definition join (socket : CustomSocket) (room : string) (st : State) : State :=
  set_rooms (<[room := {[socket_id socket]} ∪ members st room]> (rooms st)) st.

(** [socket.leave(room)]; the adapter drops a room that becomes empty. *)
Definition leave (socket : CustomSocket) (room : string) (st : State) : State :=
  let rest := members st room ∖ {[socket_id socket]} in
  set_rooms (if decide (rest = ∅) then delete room (rooms st)
             else <[room := rest]> (rooms st)) st.

(** [socket.emit(event)]. *)
Definition emit (socket : CustomSocket) (e : Event) (st : State) : State :=
  deliver [(socket_id socket, e)] st.

(** [io.to(room).emit(event)]: to every member of the room. *)
Definition io_to_emit (room : string) (e : Event) (st : State) : State :=
  deliver ((fun sid => (sid, e)) <$> elements (members st room)) st.

(** [socket.to(room).emit(event)]: to every member but the socket itself. *)
Definition socket_to_emit (socket : CustomSocket) (room : string) (e : Event)
    (st : State) : State :=
  deliver ((fun sid => (sid, e))
             <$> elements (members st room ∖ {[socket_id socket]})) st.

(** What Socket.IO does itself when a transport closes, before it fires
    ['disconnect']: the socket leaves every room it is in. *)
Definition leaveAll (socket : CustomSocket) (st : State) : State :=
  set_rooms (filter (fun kv => kv.2 ≠ ∅)
               ((fun ms => ms ∖ {[socket_id socket]}) <$> rooms st)) st.

Definition sightingRoom (sightingId : string) : string := "sighting:" ++ sightingId.
Definition userRoom (userId : string) : string := "user:" ++ userId.

(** The events a socket was sent, oldest first. *)
Definition received (st : State) (sid : string) : list Event :=
  snd <$> List.filter (fun d => String.eqb (fst d) sid) (sent st).

(** *** The handlers *)

(** [socket.user.username || (socket.user.isAnonymous ? 'Anonymous' : 'User')]. *)
Definition displayName (socket : CustomSocket) : string :=
  JS.or_else (socket_username (user socket))
    (if socket_isAnonymous (user socket) then "Anonymous" else "User").

(** The ['connection'] listener. *)
Definition onConnection (socket : CustomSocket) (st : State) : State :=
  let st1 := set_connectedUsers (<[socket_id socket := socket]> (connectedUsers st)) st in
  if socket_isAnonymous (user socket) then st1
  else join socket (userRoom (id (user socket))) st1.

(** The [chat_history] query of a join: the 50 newest visible messages of
    the sighting, reversed. *)
Definition recentMessages (st : State) (sightingId : string)
  : list (ChatMessage * option UserSummary) :=
  List.rev ((fun m => (m, includeUser (users st) m))
              <$> findMessages (chatMessages st) sightingId 50).

Definition handleJoinSighting (socket : CustomSocket) (sightingId : string)
    (st : State) : State :=
  if missingOrHidden (sightings st) sightingId then
    emit socket (error "Sighting not found") st
  else
    let st1 := join socket (sightingRoom sightingId) st in
    let st2 := socket_to_emit socket (sightingRoom sightingId)
                 (user_joined (id (user socket)) (displayName socket)
                    (socket_isAnonymous (user socket))) st1 in
    emit socket (chat_history sightingId (recentMessages st2 sightingId)) st2.

Definition handleLeaveSighting (socket : CustomSocket) (sightingId : string)
    (st : State) : State :=
  let st1 := leave socket (sightingRoom sightingId) st in
  socket_to_emit socket (sightingRoom sightingId)
    (user_left (id (user socket)) (displayName socket)) st1.

(** [handleChatMessage]; [now] and [new_id] are the time and the id the
    database gives the new row. *)
Definition handleChatMessage (now : Z) (new_id : string)
    (socket : CustomSocket) (data : ChatMessageData) (st : State) : State :=
  let message := data_message data in
  let sightingId := data_sightingId data in
  if negb (JS.truthy message) || (JS.length (JS.trim message) =? 0) then
    emit socket (error "Message cannot be empty") st
  else if 1000 <? JS.length message then
    emit socket (error "Message too long (max 1000 characters)") st
  else if missingOrHidden (sightings st) sightingId then
    emit socket (error "Sighting not found") st
  else
    let anonymous := socket_isAnonymous (user socket) in
    match createChatMessage (users st) (chatMessages st) new_id now
            (JS.trim message) sightingId
            (if anonymous then None else Some (id (user socket)))
            (if anonymous
             then Some (JS.or_else (data_anonymousName data) "Anonymous")
             else None)
            (address socket) with
    | Some (rows, chatMessage) =>
        io_to_emit (sightingRoom sightingId)
          (new_chat_message (message_id chatMessage) (Db.message chatMessage)
             (createdAt chatMessage)
             (match includeUser (users st) chatMessage with
              | Some u => u
              | None => {| summary_id := None;
                           summary_username := anonymousName chatMessage;
                           summary_isAnonymous := true |}
              end)
             sightingId)
          (set_chatMessages rows st)
    | None => emit socket (error "Failed to send message") st
    end.

Definition handleTypingStart (socket : CustomSocket) (sightingId : string)
    (st : State) : State :=
  socket_to_emit socket (sightingRoom sightingId)
    (user_typing (id (user socket)) (displayName socket)
       (socket_isAnonymous (user socket))) st.

Definition handleTypingStop (socket : CustomSocket) (sightingId : string)
    (st : State) : State :=
  socket_to_emit socket (sightingRoom sightingId)
    (user_stopped_typing (id (user socket))) st.

(** The ['disconnect'] listener. *)
Definition handleDisconnect (socket : CustomSocket) (st : State) : State :=
  set_connectedUsers (delete (socket_id socket) (connectedUsers st)) st.

(** A transport that closes: Socket.IO's own room cleanup, then the
    listener. *)
Definition disconnect (socket : CustomSocket) (st : State) : State :=
  handleDisconnect socket (leaveAll socket st).

(** [sendUserNotification]: to the personal room of the user. *)
Definition sendUserNotification (userId : string) (n : Notification)
    (st : State) : State :=
  io_to_emit (userRoom userId) (notification n) st.

Section Location.

(** [geoUtils] of [utils/database.ts] is not part of the sources: its two
    functions are parameters of the handlers that call them. *)
Variable calculateDistance : Q -> Q -> Q -> Q -> Q.
Variable findNearbySync : list Sighting -> Q -> Q -> Q -> Z -> list Sighting.

Definition DAY : Z := 24 * 60 * 60 * 1000.

(** [checkNearbyNotifications]: the recent sightings around the new
    position go to the socket itself. *)
Definition checkNearbyNotifications (now : Z) (socket : CustomSocket)
    (latitude longitude : Q) (st : State) : State :=
  match findUser (users st) (id (user socket)) with
  | Some u =>
      if enableNotifications u then
        let nearbySightings :=
          findNearbySync (sightings st) latitude longitude (notificationRadius u) 5 in
        let recentSightings :=
          List.filter (fun s => now - DAY <=? sighting_createdAt s) nearbySightings in
        if 0 <? Z.of_nat (List.length recentSightings) then
          emit socket
            (nearby_sightings
               ((fun s => {| nearby_id := sighting_id s;
                             nearby_title := title s;
                             nearby_distance :=
                               calculateDistance latitude longitude
                                 (Db.latitude s) (Db.longitude s);
                             nearby_createdAt := sighting_createdAt s |})
                  <$> recentSightings)) st
        else st
      else st
  | None => st
  end.

(** The coordinate check of [handleLocationUpdate], on two numbers. *)
Definition outOfRange (latitude longitude : Q) : bool :=
  JS.lt latitude (-90) || JS.lt 90 latitude
  || JS.lt longitude (-180) || JS.lt 180 longitude.

Definition handleLocationUpdate (now : Z) (socket : CustomSocket)
    (data : LocationUpdateData) (st : State) : State :=
  if socket_isAnonymous (user socket) then st
  else
    match asNumber (data_latitude data), asNumber (data_longitude data) with
    | Some latitude, Some longitude =>
        if outOfRange latitude longitude then
          emit socket (error "Invalid coordinates") st
        else
          match updateLocation (users st) (id (user socket)) latitude longitude now with
          | Some rows =>
              let st1 := set_users rows st in
              let st2 := checkNearbyNotifications now socket latitude longitude st1 in
              emit socket
                (location_updated "Location updated successfully" latitude longitude) st2
          | None => emit socket (error "Failed to update location") st
          end
    | _, _ => emit socket (error "Invalid coordinates") st
    end.

End Location.

End SocketService.

(** ** [services/notificationService.ts]: the proximity notifier *)

Module NotificationService.
Import Db SocketService.

Section Notifier.

(** [geoUtils.calculateDistance] is not part of the sources. *)
Variable calculateDistance : Q -> Q -> Q -> Q -> Q.

(** The push to the personal room of a user may raise (the adapter, the
    serialisation of the payload); [pushThrows userId] says it does. *)
Variable pushThrows : string -> bool.

(** [prisma.user.findMany]: registered users with notifications enabled
    and both coordinates set. *)
Definition candidates (users : list User) : list User :=
  List.filter (fun u => negb (isAnonymous u) && enableNotifications u
                        && bool_decide (is_Some (lastLatitude u))
                        && bool_decide (is_Some (lastLongitude u))) users.

Definition payload (sighting : Sighting) (distance : Q) : Notification :=
  {| notification_type := "new_nearby_sighting";
     notification_id := "sighting_" ++ sighting_id sighting;
     notification_title := "UFO Sighting Near You!";
     notification_sightingId := sighting_id sighting;
     notification_sightingTitle := title sighting;
     notification_distance := distance |}.

(** [if (user.lastLatitude && user.lastLongitude)]. *)
Definition hasLocation (user : User) : bool :=
  match lastLatitude user, lastLongitude user with
  | Some lat, Some lon => JS.truthyNumber lat && JS.truthyNumber lon
  | _, _ => false
  end.

Definition distanceTo (sighting : Sighting) (user : User) : Q :=
  calculateDistance (latitude sighting) (longitude sighting)
    (default 0%Q (lastLatitude user)) (default 0%Q (lastLongitude user)).

(** The body of the [for] loop decides to notify this user. *)
Definition selects (sighting : Sighting) (user : User) : bool :=
  hasLocation user
  && Qle_bool (distanceTo sighting user) (notificationRadius user).

(** The [for] loop: the state, and [notifiedCount] unless a push raised. *)
Fixpoint notifyEach (sighting : Sighting) (users : list User) (st : State)
    (notifiedCount : Z) : State * option Z :=
  match users with
  | [] => (st, Some notifiedCount)
  | user :: rest =>
      if selects sighting user then
        if pushThrows (user_id user) then (st, None)
        else
          notifyEach sighting rest
            (sendUserNotification (user_id user)
               (payload sighting (distanceTo sighting user)) st)
            (notifiedCount + 1)
      else notifyEach sighting rest st notifiedCount
  end.

(** [notifyNearbyUsers]: the [catch] around the loop returns 0. *)
Definition notifyNearbyUsers (sighting : Sighting) (st : State) : State * Z :=
  match notifyEach sighting (candidates (users st)) st 0 with
  | (st', Some notifiedCount) => (st', notifiedCount)
  | (st', None) => (st', 0)
  end.

End Notifier.

End NotificationService.

(** ** [controllers/chatController.ts]: the REST endpoint behind the chat *)

Module ChatController.
Import Db.

(** What [createMessage] reads of the request; an absent [message] reaches
    the validators as the empty string. *)
Record Request := {
  params_sightingId : string;
  body_message : string;
  body_anonymousName : option string;
  req_user : option Auth.AuthUser;
  req_ip : string
}.

Inductive Response :=
| BadRequest400 (errors : list string)
| Unauthorized401
| NotFound404
| Created201 (chatMessage : ChatMessage) (author : UserSummary)
| Failed500.

(** [chatMessageValidation]: the lengths are checked on the body as sent,
    the [trim] sanitizers run afterwards. *)
Definition chatMessageValidation (req : Request) : list string :=
  (if (1 <=? JS.length (body_message req)) && (JS.length (body_message req) <=? 1000)
   then [] else ["Message must be 1-1000 characters"])
  ++ match body_anonymousName req with
     | Some name =>
         if JS.length name <=? 50 then [] else ["Anonymous name too long"]
     | None => []
     end.

(** [createMessage] on the three tables; it returns the message table and
    the response. *)
Definition createMessage (now : Z) (new_id : string) (req : Request)
    (sightings : list Sighting) (users : list User)
    (chatMessages : list ChatMessage) : list ChatMessage * Response :=
  match chatMessageValidation req with
  | _ :: _ as errors => (chatMessages, BadRequest400 errors)
  | [] =>
      match req_user req with
      | None => (chatMessages, Unauthorized401)
      | Some user =>
          if missingOrHidden sightings (params_sightingId req) then
            (chatMessages, NotFound404)
          else
            let anonymous := Auth.isAnonymous user in
            match createChatMessage users chatMessages new_id now
                    (JS.trim (JS.trim (body_message req)))
                    (params_sightingId req)
                    (if anonymous then None else Some (Auth.id user))
                    (if anonymous
                     then Some (JS.or_else (JS.trim <$> body_anonymousName req)
                                  "Anonymous")
                     else None)
                    (req_ip req) with
            | Some (rows, chatMessage) =>
                (rows,
                 Created201 chatMessage
                   (match includeUser users chatMessage with
                    | Some u => u
                    | None =>
                        {| summary_id := None;
                           summary_username :=
                             Some (JS.or_else (anonymousName chatMessage) "Anonymous");
                           summary_isAnonymous := true |}
                    end))
            | None => (chatMessages, Failed500)
            end
      end
  end.

End ChatController.

(** ** The database initialisation script: distances in SQL *)

Module Geo.
#[local] Open Scope R_scope.

(** A [geography] point: longitude first, as [ST_Point(lon, lat)]. *)
Definition ST_Point (lon lat : R) : R * R := (lon, lat).

Definition EARTH_RADIUS_KM : R := 6371.

Definition radians (degrees : R) : R := degrees * PI / 180.

(** Modelled from the spec: the great-circle distance itself. PostGIS's
    [ST_Distance] and [geoUtils.calculateDistance] of [utils/database.ts]
    are not part of the sources; the specification gives the haversine
    formula with an Earth radius of 6371 km. [ST_Distance] is in metres. *)
Definition ST_Distance (p q : R * R) : R :=
  let dLat := radians (snd q - snd p) in
  let dLon := radians (fst q - fst p) in
  let a := sin (dLat / 2) * sin (dLat / 2)
           + cos (radians (snd p)) * cos (radians (snd q))
             * (sin (dLon / 2) * sin (dLon / 2)) in
  1000 * (2 * EARTH_RADIUS_KM * asin (sqrt a)).

(** [calculate_distance(lat1, lon1, lat2, lon2)]: kilometres. *)
Definition calculate_distance (lat1 lon1 lat2 lon2 : R) : R :=
  ST_Distance (ST_Point lon1 lat1) (ST_Point lon2 lat2) / 1000.

(** A coordinate pair (latitude, longitude) and its validity. *)
Definition valid (a : R * R) : Prop :=
  -90 <= fst a <= 90 /\ -180 <= snd a <= 180.

Definition distanceKm (a b : R * R) : R :=
  calculate_distance (fst a) (snd a) (fst b) (snd b).

(** The [WHERE] clause of [find_nearby_sightings] on a sighting whose
    coordinates are not null:
    [calculate_distance(center_lat, center_lon, s.latitude, s.longitude) <= radius_km]. *)
Definition isWithinRadius (origin candidate : R * R) (radius_km : R) : bool :=
  if Rle_dec (distanceKm origin candidate) radius_km then true else false.

End Geo.

(** ** [utils/auth.ts]: anonymous users *)

Module AuthUtils.

(** The columns of the user table that the anonymous-user functions read
    and write. *)
Record UserRow := {
  id : string;
  username : option string;
  email : option string;
  isAnonymous : bool;
  ipAddress : option string;
  userAgent : option string;
  createdAt : Z;
  sessionCount : Z
}.

Definition DAY : Z := 24 * 60 * 60 * 1000.

(** [where: { isAnonymous: true, ipAddress, createdAt: { gte: now - DAY } }];
    an [undefined] address puts no condition on the column. *)
Definition recentAnonymousFilter (now : Z) (ip : option string) (row : UserRow) : bool :=
  isAnonymous row
  && match ip with
     | Some a => bool_decide (ipAddress row = Some a)
     | None => true
     end
  && (now - DAY <=? createdAt row).

(** [orderBy: { createdAt: 'desc' }] and the first row: the newest one,
    and among equally new ones the first in the table. *)
Definition newest (rows : list UserRow) : option UserRow :=
  fold_left (fun best row =>
               match best with
               | Some b => if createdAt b <? createdAt row then Some row else Some b
               | None => Some row
               end) rows None.

(** [data: { sessionCount: { increment: 1 } }] on the row of the id. *)
Definition incrementSessionCount (uid : string) (rows : list UserRow) : list UserRow :=
  List.map (fun row =>
         if String.eqb (id row) uid then
           {| id := id row; username := username row; email := email row;
              isAnonymous := isAnonymous row; ipAddress := ipAddress row;
              userAgent := userAgent row; createdAt := createdAt row;
              sessionCount := sessionCount row + 1 |}
         else row) rows.

Section Defaults.

(** The column default of [sessionCount] is set in the database schema,
    which is not part of the sources. *)
Variable sessionCountDefault : Z.

(** [createAnonymousUser]: a new row with a fresh id, created now. *)
Definition createAnonymousUser (now : Z) (new_id : string)
    (ip ua : option string) (rows : list UserRow) : list UserRow * UserRow :=
  let row := {| id := new_id; username := None; email := None;
                isAnonymous := true; ipAddress := ip; userAgent := ua;
                createdAt := now; sessionCount := sessionCountDefault |} in
  (rows ++ [row], row).

(** [getOrCreateAnonymousUser]: the newest anonymous user of the address
    that is at most a day old, as it was read before its session count is
    incremented; or else a new one. *)
Definition getOrCreateAnonymousUser (now : Z) (new_id : string)
    (ip ua : option string) (rows : list UserRow) : list UserRow * UserRow :=
  match newest (List.filter (recentAnonymousFilter now ip) rows) with
  | Some recentAnonymous =>
      (incrementSessionCount (id recentAnonymous) rows, recentAnonymous)
  | None => createAnonymousUser now new_id ip ua rows
  end.

End Defaults.

End AuthUtils.

(** ** [middleware/auth.ts]: the Express middleware *)

Module AuthMiddleware.
Import Auth.

(** [s.slice(n)]. *)
Definition slice (n : nat) (s : string) : string :=
  String.substring n (String.length s - n) s.

(** [authHeader?.startsWith('Bearer ') ? authHeader.slice(7) : null]. *)
Definition bearerToken (authorization : option string) : option string :=
  match authorization with
  | Some authHeader =>
      if String.prefix "Bearer " authHeader then Some (slice 7 authHeader) else None
  | None => None
  end.

(** How a middleware ends: [next()] with the user it put on the request,
    or a response. *)
Inductive Outcome :=
| Next (user : AuthUser) (isAuthenticated : bool)
| Status (code : Z) (error : string).

(** [requireAuth]. *)
Definition requireAuth (lookup : string -> JS.Attempt (option AuthUser))
    (authorization : option string) : Outcome :=
  match bearerToken authorization with
  | Some token =>
      if JS.truthy token then
        match lookup token with
        | JS.Returns (Some user) =>
            if isAnonymous user then Status 401 "Valid authentication required"
            else Next user true
        | JS.Returns None => Status 401 "Valid authentication required"
        | JS.Throws => Status 401 "Invalid authentication token"
        end
      else Status 401 "Authentication token required"
  | None => Status 401 "Authentication token required"
  end.

(** [requireAdmin]: [requireAuth] with a continuation that tests the
    admin flag of the user it has just set. *)
Definition requireAdmin (lookup : string -> JS.Attempt (option AuthUser))
    (authorization : option string) : Outcome :=
  match requireAuth lookup authorization with
  | Next user authenticated =>
      if isAdmin user then Next user authenticated
      else Status 403 "Admin access required"
  | Status code error => Status code error
  end.

(** [value || undefined] on a nullable column. *)
Definition orUndefined (value : option string) : option string :=
  match value with
  | Some s => if JS.truthy s then Some s else None
  | None => None
  end.

Section Optional.

Variable sessionCountDefault : Z.

(** [optionalAuth] on the user table. [db1] and [db2] say whether the
    database answers the anonymous-user call of the main path and the one of
    the [catch] block; a call it does not answer throws. *)
Definition optionalAuth (lookup : string -> JS.Attempt (option AuthUser))
    (db1 db2 : bool) (now : Z) (new_id : string)
    (authorization ip ua : option string) (rows : list AuthUtils.UserRow)
  : list AuthUtils.UserRow * Outcome :=
  let fallback :=
    if db2 then
      let '(rows', anonymousUser) :=
        AuthUtils.getOrCreateAnonymousUser sessionCountDefault now new_id ip ua rows in
      (rows', Next {| id := AuthUtils.id anonymousUser; username := None;
                      email := None; isAnonymous := true; isAdmin := false |} false)
    else (rows, Status 500 "Authentication system error") in
  let anonymous :=
    if db1 then
      let '(rows', anonymousUser) :=
        AuthUtils.getOrCreateAnonymousUser sessionCountDefault now new_id ip ua rows in
      (rows', Next {| id := AuthUtils.id anonymousUser;
                      username := orUndefined (AuthUtils.username anonymousUser);
                      email := orUndefined (AuthUtils.email anonymousUser);
                      isAnonymous := true; isAdmin := false |} false)
    else fallback in
  match bearerToken authorization with
  | Some token =>
      if JS.truthy token then
        match lookup token with
        | JS.Returns (Some user) => (rows, Next user true)
        | JS.Returns None => anonymous
        | JS.Throws => fallback
        end
      else anonymous
  | None => anonymous
  end.

End Optional.

End AuthMiddleware.

(** ** [controllers/chatController.ts]: listing and moderation *)

Module ChatModeration.
Import Db.

(** [parseInt(s)] without a radix: leading white space, a sign, [0x] for
    hexadecimal, then the longest run of digits; [None] is NaN. The value is
    exact (a double rounds it above 2^53). *)
Definition digitValue (radix : Z) (c : ascii) : option Z :=
  let n := Z.of_N (JS.code c) in
  let v := if JS.is_digit c then n - 48
           else if JS.is_lower c then n - 87
           else if JS.is_upper c then n - 55
           else radix in
  if v <? radix then Some v else None.

Fixpoint digits (radix : Z) (acc : option Z) (s : string) : option Z :=
  match s with
  | EmptyString => acc
  | String c r =>
      match digitValue radix c with
      | Some d => digits radix (Some (default 0 acc * radix + d)) r
      | None => acc
      end
  end.

Definition unsigned (s : string) : option Z :=
  match s with
  | String "0" (String "x" r) => digits 16 None r
  | String "0" (String "X" r) => digits 16 None r
  | _ => digits 10 None s
  end.

Definition parseInt (s : string) : option Z :=
  match JS.drop_space s with
  | String "-" r => Z.opp <$> unsigned r
  | String "+" r => unsigned r
  | r => unsigned r
  end.

(** A message as the REST endpoints return it. *)
Record Formatted := {
  formatted_id : string;
  formatted_message : string;
  formatted_createdAt : Z;
  formatted_user : UserSummary
}.

Definition format (users : list User) (msg : ChatMessage) : Formatted :=
  {| formatted_id := message_id msg;
     formatted_message := message msg;
     formatted_createdAt := createdAt msg;
     formatted_user :=
       match includeUser users msg with
       | Some u => u
       | None => {| summary_id := None;
                    summary_username :=
                      Some (JS.or_else (anonymousName msg) "Anonymous");
                    summary_isAnonymous := true |}
       end |}.

(** [prisma.chatMessage.findMany] with [skip] and [take] on the visible
    messages of a sighting, newest first. A negative [skip] is refused
    ([None]); a negative [take] counts from the end of the list. *)
Definition findPage (messages : list ChatMessage) (sighting : string)
    (skip take : Z) : option (list ChatMessage) :=
  let sorted :=
    merge_sort newerFirst
      (List.filter (fun m => String.eqb (sightingId m) sighting
                             && negb (isHidden m)) messages) in
  if skip <? 0 then None
  else if 0 <=? take then
    Some (List.firstn (Z.to_nat take) (List.skipn (Z.to_nat skip) sorted))
  else
    Some (List.rev (List.firstn (Z.to_nat (- take))
                      (List.skipn (Z.to_nat skip) (List.rev sorted)))).

(** [prisma.chatMessage.count] with the same [where]. *)
Definition countVisible (messages : list ChatMessage) (sighting : string) : Z :=
  Z.of_nat (List.length
              (List.filter (fun m => String.eqb (sightingId m) sighting
                                     && negb (isHidden m)) messages)).

Record Pagination := {
  page : Z;
  limit : Z;
  total : Z;
  pages : option Z      (* [None]: not a finite number *)
}.

Inductive ListResponse :=
| Messages (messages : list Formatted) (pagination : Pagination)
    (sighting_id0 sighting_title : string)
| ListNotFound404
| ListFailed500.

(** [Math.ceil(total / limit)]. *)
Definition ceilDiv (total0 limit0 : Z) : option Z :=
  if limit0 =? 0 then None else Some (- ((- total0) / limit0)).

(** [getSightingMessages]; [page] and [limit] are the query parameters,
    [None] when absent. *)
Definition getSightingMessages (sightingId0 : string) (page0 limit0 : option string)
    (sightings : list Sighting) (users : list User)
    (messages : list ChatMessage) : ListResponse :=
  let pageNum := parseInt (default "1" page0) in
  let limitNum := (fun l => Z.min l 100) <$> parseInt (default "50" limit0) in
  match findSighting sightings sightingId0 with
  | Some sighting =>
      if sighting_isHidden sighting then ListNotFound404
      else
        match pageNum, limitNum with
        | Some p, Some l =>
            match findPage messages sightingId0 ((p - 1) * l) l with
            | Some found =>
                Messages (List.rev (format users <$> found))
                  {| page := p; limit := l;
                     total := countVisible messages sightingId0;
                     pages := ceilDiv (countVisible messages sightingId0) l |}
                  (sighting_id sighting) (title sighting)
            | None => ListFailed500
            end
        | _, _ => ListFailed500
        end
  | None => ListNotFound404
  end.

(** The message table with its [moderatedBy] column, and the log of
    admin actions. *)
Record AdminAction := {
  action : string;
  reason : string;
  adminId : string;
  details : string
}.

Record Tables := {
  chatMessages : list (ChatMessage * option string);
  adminActions : list AdminAction
}.

Definition findMessage (rows : list (ChatMessage * option string)) (id : string)
  : option (ChatMessage * option string) :=
  List.find (fun row => String.eqb (message_id (fst row)) id) rows.

Inductive Response :=
| Ok200 (message : string)
| Unauthorized401
| Forbidden403
| NotFound404.

(** [deleteMessage]. *)
Definition deleteMessage (messageId : string) (user : option Auth.AuthUser)
    (t : Tables) : Tables * Response :=
  match user with
  | None => (t, Unauthorized401)
  | Some u =>
      match findMessage (chatMessages t) messageId with
      | None => (t, NotFound404)
      | Some (msg, _) =>
          if negb (bool_decide (userId msg = Some (Auth.id u)))
             && negb (Auth.isAdmin u)
          then (t, Forbidden403)
          else
            ({| chatMessages :=
                  List.filter (fun row => negb (String.eqb (message_id (fst row))
                                                  messageId))
                    (chatMessages t);
                adminActions := adminActions t |},
             Ok200 "Message deleted successfully")
      end
  end.

(** [hideMessage]. *)
Definition hideMessage (messageId : string) (reason0 : option string)
    (user : option Auth.AuthUser) (t : Tables) : Tables * Response :=
  match user with
  | Some u =>
      if Auth.isAdmin u then
        match findMessage (chatMessages t) messageId with
        | None => (t, NotFound404)
        | Some (msg, _) =>
            ({| chatMessages :=
                  List.map (fun row =>
                         if String.eqb (message_id (fst row)) messageId then
                           ({| message_id := message_id (fst row);
                               message := message (fst row);
                               sightingId := sightingId (fst row);
                               userId := userId (fst row);
                               anonymousName := anonymousName (fst row);
                               ipAddress := ipAddress (fst row);
                               isHidden := true;
                               createdAt := createdAt (fst row) |},
                            Some (Auth.id u))
                         else row) (chatMessages t);
                adminActions :=
                  adminActions t
                  ++ [ {| action := "hide_message";
                          reason := JS.or_else reason0 "Inappropriate content";
                          adminId := Auth.id u;
                          details := "Hidden message " +:+ messageId
                                     +:+ " in sighting " +:+ sightingId msg |} ] |},
             Ok200 "Message hidden successfully")
        end
      else (t, Forbidden403)
  | None => (t, Forbidden403)
  end.

End ChatModeration.

(** ** [controllers/authController.ts]: position and preferences over REST *)

Module AuthController.
Import Db SocketService.

(** A response: its status and its [message] or [error]. *)
Inductive Reply := Answer (status : Z) (text : string).

Definition statusOf (r : Reply) : Z := match r with Answer s _ => s end.

(** [updateLocation]; the update itself is [updateUserLocation] of
    [utils/auth.ts], which rethrows what the database throws. *)
Definition updateLocation (now : Z) (latitude longitude : JSON)
    (user : option Auth.AuthUser) (users : list User) : list User * Reply :=
  match user with
  | None => (users, Answer 401 "Not authenticated")
  | Some u =>
      match asNumber latitude, asNumber longitude with
      | Some lat, Some lon =>
          if JS.lt lat (-90) || JS.lt 90 lat || JS.lt lon (-180) || JS.lt 180 lon
          then (users, Answer 400 "Invalid coordinates")
          else
            match Db.updateLocation users (Auth.id u) lat lon now with
            | Some rows => (rows, Answer 200 "Location updated successfully")
            | None => (users, Answer 500 "Failed to update location")
            end
      | _, _ => (users, Answer 400 "Valid latitude and longitude required")
      end
  end.

(** [typeof v === 'boolean']. *)
Definition asBoolean (v : JSON) : option bool :=
  match v with JBoolean b => Some b | _ => None end.

(** [typeof r === 'number' && r > 0 && r <= 1000]. *)
Definition validRadius (v : JSON) : option Q :=
  match asNumber v with
  | Some r => if JS.lt 0 r && Qle_bool r 1000 then Some r else None
  | None => None
  end.

(** [prisma.user.update] with the fields that [updateData] holds. *)
Definition applyPreferences (enable : option bool) (radius : option Q) (u : User) : User :=
  {| user_id := user_id u; username := username u; isAnonymous := isAnonymous u;
     enableNotifications := default (enableNotifications u) enable;
     lastLatitude := lastLatitude u; lastLongitude := lastLongitude u;
     lastLocationUpdate := lastLocationUpdate u;
     notificationRadius := default (notificationRadius u) radius |}.

(** [updateNotificationPreferences]. *)
Definition updateNotificationPreferences (enableNotifications0 notificationRadius0 : JSON)
    (user : option Auth.AuthUser) (users : list User) : list User * Reply :=
  match user with
  | Some u =>
      if Auth.isAnonymous u then
        (users, Answer 401 "Registration required for notification preferences")
      else
        match asBoolean enableNotifications0, validRadius notificationRadius0 with
        | None, None => (users, Answer 400 "No valid preferences provided")
        | enable, radius =>
            match findUser users (Auth.id u) with
            | Some _ =>
                (List.map (fun row =>
                        if String.eqb (user_id row) (Auth.id u)
                        then applyPreferences enable radius row else row) users,
                 Answer 200 "Notification preferences updated")
            | None => (users, Answer 500 "Failed to update preferences")
            end
        end
  | None => (users, Answer 401 "Registration required for notification preferences")
  end.

End AuthController.

(** ** [services/notificationService.ts]: announcements *)

Module Announcements.
Import SocketService.

(** The decimal digits of a non-negative integer below 10^21, as a
    template literal prints a number. *)
Fixpoint decimal (fuel : nat) (n : Z) (acc : string) : string :=
  match fuel with
  | O => acc
  | S fuel' =>
      let acc' := String (ascii_of_N (48 + Z.to_N (n mod 10))) acc in
      if n <? 10 then acc' else decimal fuel' (n / 10) acc'
  end.

Definition numberToString (n : Z) : string := decimal 21 n EmptyString.

(** [data || {}]: the falsy values give the empty object. *)
Definition dataOrEmpty (data : JSON) : JSON :=
  match data with
  | JUndefined | JNull | JBoolean false => JObject
  | JNumber q => if Qeq_bool q 0 then JObject else data
  | JString s => if JS.truthy s then data else JObject
  | _ => data
  end.

(** The announcement; [timestamp] is the instant that the source prints
    in ISO format. *)
Record Announcement := {
  announcement_type : string;
  announcement_id : string;
  announcement_title : string;
  announcement_message : string;
  announcement_data : JSON;
  announcement_timestamp : Z
}.

(** [sendSystemAnnouncement]: one [notification] event to the socket of
    every entry of [connectedUsers], and the size of the map. The events are
    listed in the order of the map's entries, which for a [gmap] is not the
    insertion order of a JavaScript [Map]. *)
Definition sendSystemAnnouncement (now : Z) (title message : string) (data : JSON)
    (connectedUsers0 : gmap string CustomSocket)
  : list (string * Announcement) * Z :=
  let announcement :=
    {| announcement_type := "system_announcement";
       announcement_id := "announcement_" +:+ numberToString now;
       announcement_title := title;
       announcement_message := message;
       announcement_data := dataOrEmpty data;
       announcement_timestamp := now |} in
  ((fun entry => (socket_id (snd entry), announcement)) <$> map_to_list connectedUsers0,
   Z.of_nat (size connectedUsers0)).

End Announcements.

(** * Properties *)

(** ** The handshake *)

Module AuthFacts.
Import Auth.

(** The credential of a handshake does not resolve to a user: it is absent
    or empty, it is invalid (the lookup returns [null]), or the lookup
    raises. *)
Definition credentialFails (lookup : string -> JS.Attempt (option AuthUser))
    (h : Handshake) : Prop :=
  auth_token h = None
  \/ exists token, auth_token h = Some token
       /\ (token = EmptyString \/ lookup token = JS.Returns None
           \/ lookup token = JS.Throws).

Definition handshake0 : Handshake :=
  {| socket_id := "s1"; auth_token := Some "expired.jwt.token" |}.

(** A token that does not verify resolves to no user. *)
Lemma getUserFromToken_bad_token verifyToken findUnique token :
  verifyToken token = JS.Throws ->
  getUserFromToken verifyToken findUnique token = None.
Proof. intros H. unfold getUserFromToken. now rewrite H. Qed.

(** With the repository's own lookup, a token that does not verify leaves
    the socket anonymous. *)
Lemma socketAuth_bad_token verifyToken findUnique h token :
  auth_token h = Some token ->
  verifyToken token = JS.Throws ->
  socketAuth (fun t => JS.Returns (getUserFromToken verifyToken findUnique t)) h
  = anonymousSocket h.
Proof.
  intros Htoken Hbad. unfold socketAuth. rewrite Htoken.
  rewrite (getUserFromToken_bad_token _ _ _ Hbad).
  now destruct (JS.truthy token).
Qed.

Lemma socketAuth_accepts lookup h : verdict (socketAuth lookup h) = Accept.
Proof.
  unfold socketAuth.
  destruct (auth_token h) as [token|]; [|reflexivity].
  destruct (JS.truthy token); [|reflexivity].
  destruct (lookup token) as [[u|]|]; reflexivity.
Qed.

(** C3: every handshake is accepted, and a credential that is absent,
    invalid or raises leaves the socket with the synthesized anonymous
    identity [anonymous_<socket id>], not authenticated. *)
Theorem C3_handshake_never_refused lookup h :
  verdict (socketAuth lookup h) = Accept
  /\ (credentialFails lookup h ->
      socketAuth lookup h = anonymousSocket h
      /\ id (user (socketAuth lookup h)) = "anonymous_" +:+ socket_id h
      /\ isAnonymous (user (socketAuth lookup h)) = true
      /\ isAuthenticated (socketAuth lookup h) = false).
Proof.
  split; [apply socketAuth_accepts|].
  intros Hfail.
  assert (Hanon : socketAuth lookup h = anonymousSocket h).
  { unfold socketAuth.
    destruct Hfail as [Hnone | (token & Hsome & Hcases)].
    - now rewrite Hnone.
    - rewrite Hsome.
      destruct Hcases as [-> | [Hnull | Hthrow]]; [reflexivity | |].
      + rewrite Hnull. now destruct (JS.truthy token).
      + rewrite Hthrow. now destruct (JS.truthy token). }
  rewrite Hanon. repeat split.
Qed.

Lemma C3_handshake_never_refused_witness :
  socketAuth (fun _ => JS.Throws) handshake0 = anonymousSocket handshake0.
Proof.
  apply (proj2 (C3_handshake_never_refused (fun _ => JS.Throws) handshake0)).
  right. exists "expired.jwt.token". split; [reflexivity|].
  right. right. reflexivity.
Defined.

End AuthFacts.

(** ** The spam detector *)

Module RateLimitingFacts.
Import RateLimiting.

(** A submission whose content scores 45, five short of the block
    threshold: one keyword, one URL, a description under ten characters. *)
Definition borderline : Request :=
  {| ip := Some "203.0.113.7"; remoteAddress := None;
     user_agent := Some "Mozilla/5.0";
     route_path := Some "/"; path := "/";
     body_json := JS.stringify [("title", "casino lights");
                                ("description", "www.ufo")];
     description := Some "www.ufo" |}.

(** Eleven of them from one address, one minute apart, in one hour. *)
Definition elevenSubmissions : list (Z * Request) :=
  (fun i => (1700000000000 + Z.of_nat i * 60000, borderline)) <$> seq 0 11.

(** The log as the [n]-th submission (from 1) finds it. *)
Definition logBefore (n : nat) : list SubmissionLog :=
  fst (run (List.firstn (n - 1) elevenSubmissions) []).

(** C2: on the code, the eleventh of eleven borderline submissions sent
    within one hour from one address is passed on like the ninth: the log
    keeps one row per address, action and hour, the frequency check counts
    rows, so the increment of 30 is never added and the score stays 45. *)
Theorem C2_eleventh_submission_passes :
  contentScore borderline = 45
  /\ snd (run elevenSubmissions []) = repeat Next 11
  /\ List.length (logBefore 11) = 1%nat
  /\ (count <$> logBefore 11) = [10]
  /\ spamScore (1700000000000 + 10 * 60000) borderline (logBefore 11) = 45
  /\ snd (spamDetection true (1700000000000 + 10 * 60000) borderline (logBefore 11))
     = Next
  /\ snd (spamDetection true (1700000000000 + 8 * 60000) borderline (logBefore 9))
     = Next.
Proof. vm_compute. repeat split; reflexivity. Qed.

(** *** One address, one action: the frequency check never fires *)

Section OneKey.

Variables ip0 act0 : string.







End OneKey.

End RateLimitingFacts.

(** ** Chat messages *)

Module ChatFacts.
Import Db SocketService.

(** The text is empty, or nothing but white space. *)
Definition emptyText (message : string) : Prop :=
  JS.length (JS.trim message) = 0.

Definition oversized (message : string) : Prop :=
  1000 < JS.length message.

(** The handler's first test is the emptiness of the trimmed text. *)
Lemma empty_test message :
  negb (JS.truthy message) || (JS.length (JS.trim message) =? 0) = true
  <-> emptyText message.
Proof.
  unfold emptyText. rewrite orb_true_iff, Z.eqb_eq. split.
  - intros [H | H]; [|exact H]. destruct message; [reflexivity | discriminate].
  - now right.
Qed.

(** The socket handler turns a bad message into one [error] event. *)
Lemma handleChatMessage_rejects now new_id socket data st :
  emptyText (data_message data) \/ oversized (data_message data)
  \/ missingOrHidden (sightings st) (data_sightingId data) = true ->
  exists reason,
    handleChatMessage now new_id socket data st = emit socket (error reason) st.
Proof.
  intros H. unfold handleChatMessage.
  destruct (negb (JS.truthy (data_message data))
            || (JS.length (JS.trim (data_message data)) =? 0)) eqn:Hempty;
    [eauto|].
  destruct (1000 <? JS.length (data_message data)) eqn:Hlong; [eauto|].
  destruct (missingOrHidden (sightings st) (data_sightingId data)) eqn:Hmiss;
    [eauto|].
  exfalso. destruct H as [H | [H | H]].
  - apply empty_test in H. congruence.
  - unfold oversized in H. apply Z.ltb_lt in H. congruence.
  - discriminate.
Qed.

(** The REST endpoint answers a bad message with an error status and
    leaves the table alone. *)
Lemma createMessage_rejects now new_id req sightings0 users0 rows :
  JS.length (ChatController.body_message req) = 0
  \/ oversized (ChatController.body_message req)
  \/ missingOrHidden sightings0 (ChatController.params_sightingId req) = true ->
  fst (ChatController.createMessage now new_id req sightings0 users0 rows) = rows
  /\ forall m u,
       snd (ChatController.createMessage now new_id req sightings0 users0 rows)
       <> ChatController.Created201 m u.
Proof.
  intros H. unfold ChatController.createMessage.
  destruct (ChatController.chatMessageValidation req) as [|e errs] eqn:Hval;
    [|split; [reflexivity | discriminate]].
  destruct (ChatController.req_user req) as [u|];
    [|split; [reflexivity | discriminate]].
  destruct (missingOrHidden sightings0 (ChatController.params_sightingId req))
    eqn:Hmiss; [split; [reflexivity | discriminate]|].
  exfalso. unfold ChatController.chatMessageValidation in Hval.
  destruct ((1 <=? JS.length (ChatController.body_message req))
            && (JS.length (ChatController.body_message req) <=? 1000)) eqn:Hlen;
    [|discriminate].
  apply andb_true_iff in Hlen as [H1 H2].
  apply Z.leb_le in H1. apply Z.leb_le in H2.
  unfold oversized in H. destruct H as [H | [H | H]]; [lia | lia | discriminate].
Qed.

(** Three connections and the state they reach: alice ([sock-a], a
    registered user) and an anonymous visitor ([sock-b]) have joined the room
    of sighting [s1]; a second anonymous visitor ([sock-c]) is connected but
    has joined no room. Sighting [s2] is hidden. *)
Definition alice : User :=
  {| user_id := "u1"; username := Some "alice"; isAnonymous := false;
     enableNotifications := true;
     lastLatitude := Some (407589 # 10000); lastLongitude := Some (-739851 # 10000);
     lastLocationUpdate := Some 1699990000000; notificationRadius := 10 |}.

Definition sockA : CustomSocket :=
  {| socket_id := "sock-a";
     user := {| id := "u1"; socket_username := Some "alice";
                socket_isAnonymous := false; isAdmin := false |};
     isAuthenticated := true; address := "198.51.100.1" |}.

Definition anonymousSocket (sid ip : string) : CustomSocket :=
  {| socket_id := sid;
     user := {| id := "anonymous_" ++ sid; socket_username := None;
                socket_isAnonymous := true; isAdmin := false |};
     isAuthenticated := false; address := ip |}.

Definition sockB : CustomSocket := anonymousSocket "sock-b" "198.51.100.2".
Definition sockC : CustomSocket := anonymousSocket "sock-c" "203.0.113.7".

Definition initial : State :=
  {| sightings :=
       [ {| sighting_id := "s1"; title := "Lights over the bay";
            sighting_isHidden := false;
            latitude := 407812 # 10000; longitude := -739665 # 10000;
            sighting_createdAt := 1699999000000 |};
         {| sighting_id := "s2"; title := "Removed report";
            sighting_isHidden := true;
            latitude := 0; longitude := 0;
            sighting_createdAt := 1699998000000 |} ];
     chatMessages := [];
     users := [alice];
     rooms := ∅;
     connectedUsers := ∅;
     sent := [] |}.

Definition st0 : State :=
  handleJoinSighting sockB "s1"
    (handleJoinSighting sockA "s1"
       (onConnection sockC (onConnection sockB (onConnection sockA initial)))).

(** C4: a chat message whose text is empty or oversized, or whose sighting
    is missing or hidden, is rejected on both paths. The socket handler
    sends one [error] event to the author and changes nothing else: no
    message is stored, no room changes, nobody else is sent anything. The
    REST endpoint answers with an error status and stores nothing. *)
Theorem C4_bad_message_rejected now new_id :
  (forall socket data st,
     emptyText (data_message data) \/ oversized (data_message data)
     \/ missingOrHidden (sightings st) (data_sightingId data) = true ->
     exists reason,
       let st' := handleChatMessage now new_id socket data st in
       sent st' = sent st ++ [(socket_id socket, error reason)]
       /\ chatMessages st' = chatMessages st
       /\ rooms st' = rooms st
       /\ users st' = users st
       /\ sightings st' = sightings st
       /\ connectedUsers st' = connectedUsers st)
  /\ (forall req sightings0 users0 rows,
       JS.length (ChatController.body_message req) = 0
       \/ oversized (ChatController.body_message req)
       \/ missingOrHidden sightings0 (ChatController.params_sightingId req) = true ->
       let r := ChatController.createMessage now new_id req sightings0 users0 rows in
       fst r = rows /\ forall m u, snd r <> ChatController.Created201 m u).
Proof.
  split.
  - intros socket data st H.
    destruct (handleChatMessage_rejects now new_id socket data st H)
      as [reason Hr].
    exists reason. cbn zeta. rewrite Hr. repeat split.
  - intros req sightings0 users0 rows H. now apply createMessage_rejects.
Qed.

Lemma C4_bad_message_rejected_witness :
  exists reason,
    let st' := handleChatMessage 1700000000000 "m1" sockA
                 {| data_sightingId := "s2"; data_message := "hello";
                    data_anonymousName := None |} st0 in
    sent st' = sent st0 ++ [("sock-a", error reason)]
    /\ chatMessages st' = chatMessages st0
    /\ rooms st' = rooms st0
    /\ users st' = users st0
    /\ sightings st' = sightings st0
    /\ connectedUsers st' = connectedUsers st0.
Proof.
  apply (proj1 (C4_bad_message_rejected 1700000000000 "m1") sockA
           {| data_sightingId := "s2"; data_message := "hello";
              data_anonymousName := None |} st0).
  right. right. reflexivity.
Defined.

(** A text that the spam detector scores 60, above its block threshold. *)
Definition spamText : string := "casino bitcoin viagra".

Definition spamRequest : RateLimiting.Request :=
  {| RateLimiting.ip := Some "203.0.113.7"; RateLimiting.remoteAddress := None;
     RateLimiting.user_agent := None; RateLimiting.route_path := None;
     RateLimiting.path := "/";
     RateLimiting.body_json := JS.stringify [("message", spamText)];
     RateLimiting.description := None |}.

Definition spamData : ChatMessageData :=
  {| data_sightingId := "s1"; data_message := spamText;
     data_anonymousName := None |}.

(** The event a stored message is announced with. *)
Definition announcement (users0 : list User) (row : ChatMessage) : Event :=
  new_chat_message (message_id row) (message row) (createdAt row)
    (match includeUser users0 row with
     | Some u => u
     | None => {| summary_id := None;
                  summary_username := anonymousName row;
                  summary_isAnonymous := true |}
     end)
    (sightingId row).

(** The row the handler stores for a message. *)
Definition rowOf (now : Z) (new_id : string) (socket : CustomSocket)
    (data : ChatMessageData) : ChatMessage :=
  {| message_id := new_id; message := JS.trim (data_message data);
     sightingId := data_sightingId data;
     userId := if socket_isAnonymous (user socket) then None
               else Some (id (user socket));
     anonymousName := if socket_isAnonymous (user socket)
                      then Some (JS.or_else (data_anonymousName data) "Anonymous")
                      else None;
     ipAddress := address socket; isHidden := false; createdAt := now |}.

(** C1, as stated, fails: [sock-c] is not a member of the room of [s1] and
    its text scores 60 (block threshold 50), yet the message is stored and
    delivered to both members, and [sock-c] is sent no error. *)
Lemma C1_counterexample :
  bool_decide (socket_id sockC ∈ members st0 (sightingRoom "s1")) = false
  /\ RateLimiting.blockThreshold <= RateLimiting.contentScore spamRequest
  /\ (let st' := handleChatMessage 1700000000000 "m1" sockC spamData st0 in
      List.skipn (List.length (sent st0)) (sent st')
      = [("sock-a", announcement (users st0)
                      (rowOf 1700000000000 "m1" sockC spamData));
         ("sock-b", announcement (users st0)
                      (rowOf 1700000000000 "m1" sockC spamData))]
      /\ received st' "sock-c" = []
      /\ chatMessages st' = [rowOf 1700000000000 "m1" sockC spamData]).
Proof. vm_compute. repeat split; discriminate. Qed.

(** When the sighting is visible and the text passes the two length
    tests, storing can only fail on the author's missing user row. *)
Lemma handleChatMessage_accepts now new_id socket data st :
  ~ emptyText (data_message data) ->
  ~ oversized (data_message data) ->
  missingOrHidden (sightings st) (data_sightingId data) = false ->
  socket_isAnonymous (user socket) = true
  \/ is_Some (findUser (users st) (id (user socket))) ->
  handleChatMessage now new_id socket data st
  = io_to_emit (sightingRoom (data_sightingId data))
      (announcement (users st) (rowOf now new_id socket data))
      (set_chatMessages (chatMessages st ++ [rowOf now new_id socket data]) st).
Proof.
  intros Hne Hsize Hvis Hauthor. unfold handleChatMessage.
  destruct (negb (JS.truthy (data_message data))
            || (JS.length (JS.trim (data_message data)) =? 0)) eqn:Hempty.
  { apply empty_test in Hempty. contradiction. }
  destruct (1000 <? JS.length (data_message data)) eqn:Hlong.
  { apply Z.ltb_lt in Hlong. contradiction. }
  rewrite Hvis. unfold createChatMessage, rowOf.
  destruct (socket_isAnonymous (user socket)) eqn:Hanon; [reflexivity|].
  destruct Hauthor as [? | [u Hu]]; [discriminate|].
  rewrite Hu. reflexivity.
Qed.

(** C1, amended: a chat message with a non-blank text of at most 1000
    characters for a visible sighting, from an anonymous author or one whose
    user row exists, is stored (trimmed) and announced to exactly the current
    members of the sighting's room. The handler neither asks whether the
    author is a member nor scores the text, so no hypothesis on either is
    needed. *)
Theorem C1_valid_message_fans_out now new_id socket data st :
  ~ emptyText (data_message data) ->
  ~ oversized (data_message data) ->
  missingOrHidden (sightings st) (data_sightingId data) = false ->
  socket_isAnonymous (user socket) = true
  \/ is_Some (findUser (users st) (id (user socket))) ->
  let st' := handleChatMessage now new_id socket data st in
  let row := rowOf now new_id socket data in
  chatMessages st' = chatMessages st ++ [row]
  /\ sent st'
     = sent st ++ ((fun sid => (sid, announcement (users st) row))
                     <$> elements (members st (sightingRoom (data_sightingId data))))
  /\ (forall sid, sid ∈ members st (sightingRoom (data_sightingId data)) ->
                  (sid, announcement (users st) row) ∈ sent st')
  /\ rooms st' = rooms st.
Proof.
  intros Hne Hsize Hvis Hauthor. cbn zeta.
  rewrite (handleChatMessage_accepts now new_id socket data st Hne Hsize Hvis Hauthor).
  split; [reflexivity|]. split; [reflexivity|]. split; [|reflexivity].
  intros sid Hsid. unfold io_to_emit, deliver. cbn [sent].
  apply elem_of_app. right.
  apply list_elem_of_fmap. exists sid. split; [reflexivity|].
  apply elem_of_elements. exact Hsid.
Qed.

Lemma C1_valid_message_fans_out_witness :
  let st' := handleChatMessage 1700000000000 "m1" sockC spamData st0 in
  let row := rowOf 1700000000000 "m1" sockC spamData in
  chatMessages st' = chatMessages st0 ++ [row]
  /\ sent st'
     = sent st0 ++ ((fun sid => (sid, announcement (users st0) row))
                      <$> elements (members st0 (sightingRoom "s1")))
  /\ (forall sid, sid ∈ members st0 (sightingRoom "s1") ->
                  (sid, announcement (users st0) row) ∈ sent st')
  /\ rooms st' = rooms st0.
Proof.
  apply (C1_valid_message_fans_out 1700000000000 "m1" sockC spamData st0).
  - unfold emptyText. vm_compute. discriminate.
  - unfold oversized. vm_compute. discriminate.
  - reflexivity.
  - left. reflexivity.
Defined.

End ChatFacts.

(** ** Location updates *)

Module LocationFacts.
Import Db SocketService.

Definition inRange (latitude longitude : Q) : Prop :=
  (-90 <= latitude /\ latitude <= 90 /\ -180 <= longitude /\ longitude <= 180)%Q.

Lemma lt_false a b : JS.lt a b = false <-> (b <= a)%Q.
Proof.
  unfold JS.lt. rewrite negb_false_iff. apply Qle_bool_iff.
Qed.

Lemma outOfRange_false latitude longitude :
  outOfRange latitude longitude = false <-> inRange latitude longitude.
Proof.
  unfold outOfRange, inRange.
  rewrite !orb_false_iff, !lt_false. tauto.
Qed.

(** The update rewrites the row [findUser] returns. *)
Lemma findUser_updateLocation users0 uid lat lon now u :
  findUser users0 uid = Some u ->
  exists rows u',
    updateLocation users0 uid lat lon now = Some rows
    /\ findUser rows uid = Some u'
    /\ lastLatitude u' = Some lat /\ lastLongitude u' = Some lon
    /\ lastLocationUpdate u' = Some now
    /\ user_id u' = user_id u /\ notificationRadius u' = notificationRadius u.
Proof.
  intros Hfind. unfold updateLocation. rewrite Hfind.
  eexists. eexists. split; [reflexivity|].
  unfold findUser in *. induction users0 as [|v rest IH]; [discriminate|].
  cbn [List.map List.find] in *.
  destruct (String.eqb (user_id v) uid) eqn:Hv.
  - cbn [user_id]. rewrite Hv. injection Hfind as <-. repeat split.
  - rewrite Hv. apply IH. exact Hfind.
Qed.

Section Handler.

Variable calculateDistance : Q -> Q -> Q -> Q -> Q.
Variable findNearbySync : list Sighting -> Q -> Q -> Q -> Z -> list Sighting.

(** The nearby check only ever adds events for the socket itself. *)
Lemma checkNearbyNotifications_spec now socket lat lon st :
  exists extra,
    let st' := checkNearbyNotifications calculateDistance findNearbySync
                 now socket lat lon st in
    users st' = users st /\ chatMessages st' = chatMessages st
    /\ rooms st' = rooms st
    /\ sent st' = sent st ++ extra
    /\ Forall (fun d => fst d = socket_id socket) extra.
Proof.
  unfold checkNearbyNotifications.
  destruct (findUser (users st) (id (user socket))) as [u|];
    [|exists []; cbn; rewrite app_nil_r; repeat split; constructor].
  destruct (enableNotifications u);
    [|exists []; cbn; rewrite app_nil_r; repeat split; constructor].
  match goal with |- context [if ?c then _ else _] => destruct c end.
  - eexists [_]. cbn. repeat split. repeat constructor.
  - exists []. cbn. rewrite app_nil_r. repeat split. constructor.
Qed.

(** C5, amended: the handler serves registered connections only. For one
    whose user row exists, two numbers in range become the user's stored
    position (with the time of the update) and the socket is sent
    [location_updated] with them as its last event; a latitude or longitude
    that is not a number, or out of range, is answered with the error
    [Invalid coordinates] and nothing else changes. An anonymous
    connection's update is dropped: nothing is stored and nothing is sent,
    whatever the coordinates. *)
Theorem C5_location_update now socket data st :
  let st' := handleLocationUpdate calculateDistance findNearbySync
               now socket data st in
  (socket_isAnonymous (user socket) = false ->
   (forall latitude longitude,
      data_latitude data = JNumber latitude ->
      data_longitude data = JNumber longitude ->
      inRange latitude longitude ->
      is_Some (findUser (users st) (id (user socket))) ->
      (exists u', findUser (users st') (id (user socket)) = Some u'
                  /\ lastLatitude u' = Some latitude
                  /\ lastLongitude u' = Some longitude
                  /\ lastLocationUpdate u' = Some now)
      /\ last (sent st')
         = Some (socket_id socket,
                 location_updated "Location updated successfully"
                   latitude longitude))
   /\ ((asNumber (data_latitude data) = None
        \/ asNumber (data_longitude data) = None
        \/ exists latitude longitude,
             data_latitude data = JNumber latitude
             /\ data_longitude data = JNumber longitude
             /\ ~ inRange latitude longitude) ->
       st' = emit socket (error "Invalid coordinates") st))
  /\ (socket_isAnonymous (user socket) = true -> st' = st).
Proof.
  cbn zeta. unfold handleLocationUpdate. split.
  - intros Hreg. rewrite Hreg. split.
    + intros latitude longitude Hlat Hlon Hrange [u Hu].
      rewrite Hlat, Hlon. cbn [asNumber].
      apply outOfRange_false in Hrange. rewrite Hrange.
      destruct (findUser_updateLocation (users st) (id (user socket))
                  latitude longitude now u Hu)
        as (rows & u' & Hup & Hfind & H1 & H2 & H3 & _).
      rewrite Hup.
      destruct (checkNearbyNotifications_spec now socket latitude longitude
                  (set_users rows st)) as (extra & Husers & _).
      cbn zeta in Husers. split.
      * exists u'. cbn [users emit deliver]. rewrite Husers. cbn [users set_users].
        repeat split; assumption.
      * cbn [sent emit deliver]. apply last_snoc.
    + intros [Hlat | [Hlon | (latitude & longitude & Hlat & Hlon & Hout)]].
      * rewrite Hlat. reflexivity.
      * rewrite Hlon. now destruct (asNumber (data_latitude data)).
      * rewrite Hlat, Hlon. cbn [asNumber].
        destruct (outOfRange latitude longitude) eqn:Hr; [reflexivity|].
        apply outOfRange_false in Hr. contradiction.
  - intros Hanon. now rewrite Hanon.
Qed.

End Handler.

(** A position in range, and one that is not. *)
Definition inRangeData : LocationUpdateData :=
  {| data_latitude := JNumber (407589 # 10000);
     data_longitude := JNumber (-739851 # 10000) |}.

Definition outOfRangeData : LocationUpdateData :=
  {| data_latitude := JNumber 91; data_longitude := JNumber 0 |}.

Definition noDistance (lat1 lon1 lat2 lon2 : Q) : Q := 0.
Definition noneNearby (sightings0 : list Sighting) (lat lon radius : Q)
    (limit : Z) : list Sighting := [].

(** C5, as stated, fails for an anonymous connection: its in-range
    coordinates are neither stored nor acknowledged, and its out-of-range
    coordinates draw no validation error. *)
Lemma C5_counterexample :
  socket_isAnonymous (user ChatFacts.sockB) = true
  /\ inRange (407589 # 10000) (-739851 # 10000)
  /\ handleLocationUpdate noDistance noneNearby 1700000000000
       ChatFacts.sockB inRangeData ChatFacts.st0 = ChatFacts.st0
  /\ received
       (handleLocationUpdate noDistance noneNearby 1700000000000
          ChatFacts.sockB inRangeData ChatFacts.st0) "sock-b"
     = received ChatFacts.st0 "sock-b"
  /\ ~ inRange 91 0
  /\ handleLocationUpdate noDistance noneNearby 1700000000000
       ChatFacts.sockB outOfRangeData ChatFacts.st0 = ChatFacts.st0.
Proof.
  split; [reflexivity|]. split; [unfold inRange; repeat split; discriminate|].
  split; [reflexivity|]. split; [reflexivity|]. split; [|reflexivity].
  intros (_ & H & _). apply H. reflexivity.
Qed.

Lemma C5_location_update_witness :
  (exists u',
     findUser
       (users (handleLocationUpdate noDistance noneNearby 1700000000000
                 ChatFacts.sockA inRangeData ChatFacts.st0)) "u1" = Some u'
     /\ lastLatitude u' = Some (407589 # 10000)
     /\ lastLongitude u' = Some (-739851 # 10000)
     /\ lastLocationUpdate u' = Some 1700000000000)
  /\ last (sent (handleLocationUpdate noDistance noneNearby 1700000000000
                   ChatFacts.sockA inRangeData ChatFacts.st0))
     = Some ("sock-a",
             location_updated "Location updated successfully"
               (407589 # 10000) (-739851 # 10000)).
Proof.
  apply (proj1 (proj1 (C5_location_update noDistance noneNearby 1700000000000
                         ChatFacts.sockA inRangeData ChatFacts.st0)
                  eq_refl)
           (407589 # 10000) (-739851 # 10000) eq_refl eq_refl).
  - unfold inRange. repeat split; discriminate.
  - exists ChatFacts.alice. reflexivity.
Defined.

End LocationFacts.

(** ** Disconnects *)

Module PresenceFacts.
Import Db SocketService.

(** Socket.IO's cleanup takes the socket out of every room. *)
Lemma members_leaveAll socket st room :
  members (leaveAll socket st) room = members st room ∖ {[socket_id socket]}.
Proof.
  unfold members, leaveAll. cbn [rooms set_rooms].
  rewrite map_lookup_filter, lookup_fmap.
  destruct (rooms st !! room) as [ms|]; cbn.
  - case_guard as Hne; cbn in *; [reflexivity|].
    destruct (decide (ms ∖ {[socket_id socket]} = ∅)) as [->|]; [reflexivity|].
    contradiction.
  - set_solver.
Qed.

(** C8, amended: when a connection closes, whether or not it was typing,
    nobody is sent anything (no typing-stop, no [user_left]): the listener
    only drops the socket from [connectedUsers]. Socket.IO's own cleanup
    takes the socket out of its rooms, so the member count of every room it
    was in goes down by exactly one. *)
Theorem C8_disconnect socket st :
  let st' := disconnect socket st in
  sent st' = sent st
  /\ connectedUsers st' !! socket_id socket = None
  /\ (forall room, members st' room = members st room ∖ {[socket_id socket]})
  /\ (forall room, socket_id socket ∈ members st room ->
                   size (members st room) = S (size (members st' room))).
Proof.
  cbn zeta. unfold disconnect.
  assert (Hm : forall room,
             members (handleDisconnect socket (leaveAll socket st)) room
             = members st room ∖ {[socket_id socket]}).
  { intros room. rewrite <- members_leaveAll. reflexivity. }
  split; [reflexivity|]. split; [apply lookup_delete_eq|]. split; [exact Hm|].
  intros room Hin. rewrite Hm.
  rewrite size_difference by set_solver.
  rewrite size_singleton.
  assert (size (members st room) ≠ 0%nat).
  { intros Hz. apply size_empty_inv in Hz. set_solver. }
  lia.
Qed.

Lemma C8_disconnect_witness :
  size (members ChatFacts.st0 (sightingRoom "s1"))
  = S (size (members (disconnect ChatFacts.sockA ChatFacts.st0) (sightingRoom "s1"))).
Proof.
  apply (proj2 (proj2 (proj2 (C8_disconnect ChatFacts.sockA ChatFacts.st0)))).
  refine (bool_decide_unpack _ _). vm_compute. exact I.
Defined.

(** C8, as stated, fails: alice is typing in the room of [s1] when her
    connection closes; the other member was told she is typing and is told
    nothing more. *)
Lemma C8_counterexample :
  let typing := handleTypingStart ChatFacts.sockA "s1" ChatFacts.st0 in
  let gone := disconnect ChatFacts.sockA typing in
  elements (members typing (sightingRoom "s1")) = ["sock-a"; "sock-b"]
  /\ last (received typing "sock-b") = Some (user_typing "u1" "alice" false)
  /\ elements (members gone (sightingRoom "s1")) = ["sock-b"]
  /\ received gone "sock-b" = received typing "sock-b"
  /\ sent gone = sent typing
  /\ List.filter (fun d => match snd d with
                           | user_stopped_typing _ | user_left _ _ => true
                           | _ => false
                           end) (sent gone) = [].
Proof. vm_compute. repeat split. Qed.

End PresenceFacts.

(** ** The chat history of a join *)

Module HistoryFacts.
Import Db SocketService.

(** The messages of a sighting that are not hidden, in table order. *)
Definition visible (messages : list ChatMessage) (sighting : string)
  : list ChatMessage :=
  List.filter (fun m => String.eqb (sightingId m) sighting && negb (isHidden m))
    messages.

Definition olderFirst (a b : ChatMessage) : Prop := createdAt a <= createdAt b.

#[local] Instance newerFirst_total : Total newerFirst.
Proof. intros a b. unfold newerFirst. lia. Qed.

#[local] Instance newerFirst_trans : Transitive newerFirst.
Proof. intros a b c. unfold newerFirst. lia. Qed.

(** Reversing a list sorted newest first gives one sorted oldest first. *)
Lemma StronglySorted_rev_newerFirst (l : list ChatMessage) :
  StronglySorted newerFirst l -> StronglySorted olderFirst (List.rev l).
Proof.
  induction 1 as [|x l Hl IH Hx]; cbn [List.rev]; [constructor|].
  apply StronglySorted_app_2.
  - intros a b Ha Hb. apply list_elem_of_singleton in Hb as ->.
    apply list_elem_of_In, in_rev in Ha.
    rewrite Forall_forall in Hx. apply Hx, list_elem_of_In, Ha.
  - exact IH.
  - repeat constructor.
Qed.

(** The messages of the history, without the user each one includes. *)
Lemma fst_recentMessages st sid :
  fst <$> recentMessages st sid
  = List.rev (findMessages (chatMessages st) sid 50).
Proof.
  unfold recentMessages.
  induction (findMessages (chatMessages st) sid 50) as [|m l IH];
    [reflexivity|].
  cbn [fmap list_fmap List.rev] in *. rewrite fmap_app, IH. reflexivity.
Qed.

(** What the query returns, and what it leaves out. *)
Lemma findMessages_spec messages sid n :
  let found := findMessages messages sid n in
  (length found <= n)%nat
  /\ StronglySorted newerFirst found
  /\ exists older,
       visible messages sid ≡ₚ found ++ older
       /\ length older = (length (visible messages sid) - n)%nat
       /\ forall o h, o ∈ older -> h ∈ found -> createdAt o <= createdAt h.
Proof.
  cbn zeta. unfold findMessages. fold (visible messages sid).
  set (sorted := merge_sort newerFirst (visible messages sid)).
  assert (Hsorted : StronglySorted newerFirst sorted)
    by (apply StronglySorted_merge_sort; apply _).
  assert (Hperm : sorted ≡ₚ visible messages sid)
    by (apply merge_sort_Permutation).
  rewrite <- (firstn_skipn n sorted) in Hsorted.
  split; [apply firstn_le_length|].
  split; [eapply StronglySorted_app_1_l; exact Hsorted|].
  exists (List.skipn n sorted). split; [|split].
  - now rewrite firstn_skipn.
  - rewrite length_skipn. now rewrite (Permutation_length Hperm).
  - intros o h Ho Hh.
    exact (StronglySorted_app_1_elem_of _ _ _ h o Hsorted Hh Ho).
Qed.

(** A state with three messages on sighting [s1], stored newest first;
    the middle one is hidden. *)
Definition chatRow (mid text : string) (hidden : bool) (time : Z) : ChatMessage :=
  {| message_id := mid; message := text; sightingId := "s1";
     userId := None; anonymousName := Some "Anonymous";
     ipAddress := "198.51.100.2"; isHidden := hidden; createdAt := time |}.

Definition stChat : State :=
  set_chatMessages
    [ chatRow "m3" "still there" false 1700000003000;
      chatRow "m2" "buy now" true 1700000002000;
      chatRow "m1" "what is that" false 1700000001000 ]
    ChatFacts.st0.

Example history_of_stChat :
  message_id <$> (fst <$> recentMessages stChat "s1") = ["m1"; "m3"].
Proof. vm_compute. reflexivity. Qed.

(** C10: a successful join sends the joiner, as its last event, a
    [chat_history] of at most 50 messages; all of them are messages of the
    sighting that are not hidden; they are ordered oldest first; and they are
    the most recent ones: the visible messages of the sighting are the
    history plus [older] ones, each of which is at most as recent as every
    message of the history. *)
Theorem C10_join_history socket sid st :
  missingOrHidden (sightings st) sid = false ->
  exists st2 history,
    handleJoinSighting socket sid st
    = emit socket (chat_history sid history) st2
    /\ socket_id socket ∈ members st2 (sightingRoom sid)
    /\ (length history <= 50)%nat
    /\ (forall m, m ∈ fst <$> history ->
                  m ∈ chatMessages st /\ sightingId m = sid /\ isHidden m = false)
    /\ StronglySorted olderFirst (fst <$> history)
    /\ exists older,
         visible (chatMessages st) sid ≡ₚ (fst <$> history) ++ older
         /\ length older = (length (visible (chatMessages st) sid) - 50)%nat
         /\ forall o h, o ∈ older -> h ∈ fst <$> history ->
                        createdAt o <= createdAt h.
Proof.
  intros Hvis. unfold handleJoinSighting. rewrite Hvis.
  eexists. eexists. split; [reflexivity|].
  match goal with |- context [recentMessages ?s sid] => set (st2 := s) end.
  assert (Hfst : fst <$> recentMessages st2 sid
                 = List.rev (findMessages (chatMessages st) sid 50))
    by (exact (fst_recentMessages st2 sid)).
  destruct (findMessages_spec (chatMessages st) sid 50)
    as (Hlen & Hsorted & older & Hperm & Holder & Hrecent).
  cbn zeta in *.
  split.
  { unfold members, st2. cbn [rooms socket_to_emit deliver join set_rooms].
    rewrite lookup_insert_eq. cbn. set_solver. }
  split.
  { rewrite <- (length_fmap fst), Hfst, length_rev. exact Hlen. }
  split.
  { intros m Hm. rewrite Hfst in Hm.
    apply list_elem_of_In, in_rev, list_elem_of_In in Hm.
    assert (Hin : m ∈ visible (chatMessages st) sid).
    { rewrite Hperm. apply elem_of_app. now left. }
    apply list_elem_of_In, filter_In in Hin as [Hin Hf].
    apply andb_true_iff in Hf as [Hs Hh].
    apply String.eqb_eq in Hs. apply negb_true_iff in Hh.
    split; [now apply list_elem_of_In|]. split; assumption. }
  split.
  { rewrite Hfst. now apply StronglySorted_rev_newerFirst. }
  exists older. rewrite Hfst. split; [|split].
  - rewrite Hperm. apply Permutation_app_tail, Permutation_rev.
  - exact Holder.
  - intros o h Ho Hh. apply Hrecent; [exact Ho|].
    now apply list_elem_of_In, in_rev, list_elem_of_In in Hh.
Qed.

Lemma C10_join_history_witness :
  exists st2 history,
    handleJoinSighting ChatFacts.sockC "s1" stChat
    = emit ChatFacts.sockC (chat_history "s1" history) st2
    /\ socket_id ChatFacts.sockC ∈ members st2 (sightingRoom "s1")
    /\ (length history <= 50)%nat
    /\ (forall m, m ∈ fst <$> history ->
                  m ∈ chatMessages stChat /\ sightingId m = "s1"
                  /\ isHidden m = false)
    /\ StronglySorted olderFirst (fst <$> history)
    /\ exists older,
         visible (chatMessages stChat) "s1" ≡ₚ (fst <$> history) ++ older
         /\ length older = (length (visible (chatMessages stChat) "s1") - 50)%nat
         /\ forall o h, o ∈ older -> h ∈ fst <$> history ->
                        createdAt o <= createdAt h.
Proof.
  apply (C10_join_history ChatFacts.sockC "s1" stChat). reflexivity.
Defined.

End HistoryFacts.

(** ** The proximity notifier *)

Module NotifierFacts.
Import Db SocketService NotificationService.

Lemma deliver_nil st : deliver [] st = st.
Proof. destruct st. unfold deliver. cbn. now rewrite app_nil_r. Qed.

Lemma deliver_deliver a b st : deliver b (deliver a st) = deliver (a ++ b) st.
Proof. unfold deliver. cbn. now rewrite app_assoc. Qed.

Section Pass.

Variable calculateDistance : Q -> Q -> Q -> Q -> Q.
Variable pushThrows : string -> bool.

#[local] Abbreviation selects := (selects calculateDistance).
#[local] Abbreviation distanceTo := (distanceTo calculateDistance).
#[local] Abbreviation notifyEach := (notifyEach calculateDistance pushThrows).
#[local] Abbreviation notifyNearbyUsers :=
  (notifyNearbyUsers calculateDistance pushThrows).

(** The events one pushed user stands for: one per socket in the user's
    personal room. *)
Definition pushTo (st : State) (sighting : Sighting) (u : User)
  : list (string * Event) :=
  (fun sid => (sid, notification (payload sighting (distanceTo sighting u))))
    <$> elements (members st (userRoom (user_id u))).

(** The events of a pass over [us] in which no push raises. *)
Definition pushes (st : State) (sighting : Sighting) (us : list User)
  : list (string * Event) :=
  List.flat_map (pushTo st sighting) (List.filter (selects sighting) us).

(** The users a pass over [us] counts. *)
Definition counted (sighting : Sighting) (us : list User) : Z :=
  Z.of_nat (List.length (List.filter (selects sighting) us)).

Lemma pushTo_deliver out st sighting u :
  pushTo (deliver out st) sighting u = pushTo st sighting u.
Proof. reflexivity. Qed.

(** The loop over a prefix in which no selected user's push raises. *)
Lemma notifyEach_app sighting before rest :
  (forall v, v ∈ before -> selects sighting v = true ->
             pushThrows (user_id v) = false) ->
  forall out st n,
    notifyEach sighting (before ++ rest) (deliver out st) n
    = notifyEach sighting rest
        (deliver (out ++ pushes st sighting before) st)
        (n + counted sighting before).
Proof.
  unfold pushes, counted.
  induction before as [|v before IH]; intros Hok out st n.
  - cbn. now rewrite app_nil_r, Z.add_0_r.
  - cbn [app NotificationService.notifyEach List.filter].
    destruct (selects sighting v) eqn:Hsel.
    + rewrite (Hok v) by (assumption || apply list_elem_of_here).
      unfold sendUserNotification, io_to_emit.
      rewrite deliver_deliver.
      rewrite IH by (intros w Hw; apply Hok; now apply list_elem_of_further).
      cbn [List.flat_map List.length]. rewrite <- app_assoc.
      f_equal. lia.
    + rewrite IH by (intros w Hw; apply Hok; now apply list_elem_of_further).
      reflexivity.
Qed.

(** A pass in which no push raises notifies exactly the selected
    candidates and returns their number. *)
Lemma notifyNearbyUsers_no_throw sighting st :
  (forall v, v ∈ candidates (users st) -> selects sighting v = true ->
             pushThrows (user_id v) = false) ->
  notifyNearbyUsers sighting st
  = (deliver (pushes st sighting (candidates (users st))) st,
     counted sighting (candidates (users st))).
Proof.
  intros Hok. unfold NotificationService.notifyNearbyUsers.
  pose proof (notifyEach_app sighting (candidates (users st)) [] Hok [] st 0)
    as Hloop.
  rewrite deliver_nil, app_nil_r in Hloop. rewrite Hloop. reflexivity.
Qed.

(** A candidate whose two coordinates are not zero is selected exactly
    when the distance is at most its radius. *)
Lemma selects_iff sighting u lat lon :
  lastLatitude u = Some lat -> lastLongitude u = Some lon ->
  ~ (lat == 0)%Q -> ~ (lon == 0)%Q ->
  selects sighting u = true
  <-> (calculateDistance (latitude sighting) (longitude sighting) lat lon
       <= notificationRadius u)%Q.
Proof.
  intros Hlat Hlon Hlat0 Hlon0.
  unfold NotificationService.selects, hasLocation,
    NotificationService.distanceTo, JS.truthyNumber.
  rewrite Hlat, Hlon. cbn [default].
  destruct (Qeq_bool lat 0) eqn:E1; [apply Qeq_bool_iff in E1; contradiction|].
  destruct (Qeq_bool lon 0) eqn:E2; [apply Qeq_bool_iff in E2; contradiction|].
  cbn. apply Qle_bool_iff.
Qed.

(** C7, amended: a push that raises ends the pass. The candidates before
    the failing one keep their notifications; the failing one and every
    candidate after it are sent nothing, and the operation returns 0. *)
Theorem C7_failure_ends_pass sighting st before u after :
  candidates (users st) = before ++ u :: after ->
  (forall v, v ∈ before -> selects sighting v = true ->
             pushThrows (user_id v) = false) ->
  selects sighting u = true ->
  pushThrows (user_id u) = true ->
  notifyNearbyUsers sighting st
  = (deliver (pushes st sighting before) st, 0).
Proof.
  intros Hcands Hok Hsel Hthrow.
  unfold NotificationService.notifyNearbyUsers. rewrite Hcands.
  pose proof (notifyEach_app sighting before (u :: after) Hok [] st 0) as Hloop.
  rewrite deliver_nil in Hloop. rewrite Hloop.
  cbn [NotificationService.notifyEach app]. rewrite Hsel, Hthrow. reflexivity.
Qed.

End Pass.

(** Two registered users near sighting [s1], each with one connection. *)
Definition bob : User :=
  {| user_id := "u2"; username := Some "bob"; isAnonymous := false;
     enableNotifications := true;
     lastLatitude := Some (407580 # 10000); lastLongitude := Some (-739850 # 10000);
     lastLocationUpdate := Some 1699990000000; notificationRadius := 10 |}.

Definition sockD : CustomSocket :=
  {| socket_id := "sock-d";
     user := {| id := "u2"; socket_username := Some "bob";
                socket_isAnonymous := false; isAdmin := false |};
     isAuthenticated := true; address := "198.51.100.4" |}.

Definition stNear : State :=
  onConnection sockD (set_users [ChatFacts.alice; bob] ChatFacts.st0).

Definition s1 : Sighting :=
  {| sighting_id := "s1"; title := "Lights over the bay";
     sighting_isHidden := false;
     latitude := 407812 # 10000; longitude := -739665 # 10000;
     sighting_createdAt := 1699999000000 |}.

(** Every distance is 3.1 km; the push to alice ([u1]) raises. *)
Definition threeKm (lat1 lon1 lat2 lon2 : Q) : Q := 31 # 10.
Definition aliceFails (userId : string) : bool := String.eqb userId "u1".
Definition noFailure (userId : string) : bool := false.

(** C7, as stated, fails: alice and bob are both within their radius of
    the new sighting; when the push to alice raises, bob, the next
    candidate, is sent nothing and the pass returns 0. Without the failure
    both are notified. *)
Lemma C7_counterexample :
  candidates (users stNear) = [ChatFacts.alice; bob]
  /\ selects threeKm s1 bob = true
  /\ notifyNearbyUsers threeKm aliceFails s1 stNear = (stNear, 0)
  /\ received (fst (notifyNearbyUsers threeKm aliceFails s1 stNear)) "sock-d" = []
  /\ snd (notifyNearbyUsers threeKm noFailure s1 stNear) = 2
  /\ received (fst (notifyNearbyUsers threeKm noFailure s1 stNear)) "sock-d"
     = [notification (payload s1 (31 # 10))].
Proof. vm_compute. repeat split. Qed.

Lemma C7_failure_ends_pass_witness :
  notifyNearbyUsers threeKm aliceFails s1 stNear
  = (deliver (pushes threeKm stNear s1 []) stNear, 0).
Proof.
  apply (C7_failure_ends_pass threeKm aliceFails s1 stNear [] ChatFacts.alice [bob]).
  - reflexivity.
  - intros v Hv. inversion Hv.
  - reflexivity.
  - reflexivity.
Defined.

(** A registered user on the equator, connected, with notifications
    enabled and a radius of 50 km, and a sighting at the very same place. *)
Definition dana : User :=
  {| user_id := "u4"; username := Some "dana"; isAnonymous := false;
     enableNotifications := true;
     lastLatitude := Some 0%Q; lastLongitude := Some (-785 # 10);
     lastLocationUpdate := Some 1699990000000; notificationRadius := 50 |}.

Definition sockE : CustomSocket :=
  {| socket_id := "sock-e";
     user := {| id := "u4"; socket_username := Some "dana";
                socket_isAnonymous := false; isAdmin := false |};
     isAuthenticated := true; address := "198.51.100.5" |}.

Definition stEquator : State :=
  onConnection sockE (set_users [dana] ChatFacts.initial).

Definition equatorSighting : Sighting :=
  {| sighting_id := "s9"; title := "Glow over Quito";
     sighting_isHidden := false;
     latitude := 0; longitude := -785 # 10;
     sighting_createdAt := 1699999000000 |}.

(** C6, on the code: dana is a candidate of the pass (notifications
    enabled, both coordinates known) and her socket sits in her personal
    room, but whatever the distance function computes, even 0 km against
    her radius of 50 km, she is not selected, nothing is sent and the pass
    returns 0: her latitude 0 is falsy in
    [if (user.lastLatitude && user.lastLongitude)]. *)
Theorem C6_candidate_on_equator_skipped calculateDistance pushThrows :
  candidates (users stEquator) = [dana]
  /\ elements (members stEquator (userRoom "u4")) = ["sock-e"]
  /\ hasLocation dana = false
  /\ selects calculateDistance equatorSighting dana = false
  /\ notifyNearbyUsers calculateDistance pushThrows equatorSighting stEquator
     = (stEquator, 0).
Proof.
  split; [vm_compute; reflexivity|]. split; [vm_compute; reflexivity|].
  split; [reflexivity|]. split; reflexivity.
Qed.

End NotifierFacts.

(** ** Distances *)

Module GeoFacts.
Import Geo.
#[local] Open Scope R_scope.

Lemma radians_0 : radians 0 = 0.
Proof. unfold radians. lra. Qed.

Lemma radians_opp x y : radians (x - y) = - radians (y - x).
Proof. unfold radians. lra. Qed.

(** The half-angle sine squared does not see the sign of the angle. *)
Lemma sin_half_sqr_opp t : sin (- t / 2) * sin (- t / 2) = sin (t / 2) * sin (t / 2).
Proof.
  replace (- t / 2) with (- (t / 2)) by lra.
  rewrite sin_neg. lra.
Qed.

Lemma ST_Distance_refl p : ST_Distance p p = 0.
Proof.
  unfold ST_Distance. cbn zeta.
  replace (snd p - snd p) with 0 by lra.
  replace (fst p - fst p) with 0 by lra.
  rewrite radians_0. replace (0 / 2) with 0 by lra. rewrite sin_0.
  replace (0 * 0 + cos (radians (snd p)) * cos (radians (snd p)) * (0 * 0))
    with 0 by lra.
  rewrite sqrt_0, asin_0. lra.
Qed.

Lemma ST_Distance_sym p q : ST_Distance p q = ST_Distance q p.
Proof.
  unfold ST_Distance. cbn zeta.
  rewrite (radians_opp (snd q) (snd p)), (radians_opp (fst q) (fst p)).
  rewrite !sin_half_sqr_opp.
  rewrite (Rmult_comm (cos (radians (snd p))) (cos (radians (snd q)))).
  reflexivity.
Qed.

Lemma distanceKm_refl a : distanceKm a a = 0.
Proof.
  unfold distanceKm, calculate_distance. rewrite ST_Distance_refl. lra.
Qed.

Lemma distanceKm_sym a b : distanceKm a b = distanceKm b a.
Proof.
  unfold distanceKm, calculate_distance.
  now rewrite (ST_Distance_sym (ST_Point (snd a) (fst a))).
Qed.

Lemma isWithinRadius_true a b r :
  isWithinRadius a b r = true <-> distanceKm a b <= r.
Proof.
  unfold isWithinRadius. destruct (Rle_dec (distanceKm a b) r); split;
    intros H; (assumption || reflexivity || discriminate || contradiction).
Qed.

(** C9: on valid coordinate pairs the distance from a point to itself is
    0, the distance is symmetric, and the radius test is true when the
    radius is at least the distance and false when it is smaller. *)
Theorem C9_distance_laws a b :
  valid a -> valid b ->
  distanceKm a a = 0
  /\ distanceKm a b = distanceKm b a
  /\ forall r, (distanceKm a b <= r -> isWithinRadius a b r = true)
               /\ (r < distanceKm a b -> isWithinRadius a b r = false).
Proof.
  intros _ _. split; [apply distanceKm_refl|]. split; [apply distanceKm_sym|].
  intros r. split.
  - apply isWithinRadius_true.
  - intros Hlt. destruct (isWithinRadius a b r) eqn:E; [|reflexivity].
    apply isWithinRadius_true in E. lra.
Qed.

(** The candidate and the report of the specification's example, as
    (latitude, longitude) pairs. *)
Definition candidate : R * R := (40.7589, -73.9851).
Definition report : R * R := (40.7812, -73.9665).

Lemma C9_distance_laws_witness :
  distanceKm candidate candidate = 0
  /\ distanceKm candidate report = distanceKm report candidate
  /\ forall r, (distanceKm candidate report <= r ->
                isWithinRadius candidate report r = true)
               /\ (r < distanceKm candidate report ->
                   isWithinRadius candidate report r = false).
Proof.
  apply (C9_distance_laws candidate report);
    unfold valid, candidate, report; cbn [fst snd]; lra.
Defined.

End GeoFacts.

(** ** More on the spam detector *)

Module RateLimitingMore.
Import RateLimiting.
















(** *** Keywords in any letter case *)

Lemma toLowerCase_app a b :
  JS.toLowerCase (a +:+ b) = JS.toLowerCase a +:+ JS.toLowerCase b.
Proof.
  induction a as [|c a IH]; [reflexivity|].
  change (JS.toLowerCase (String c (a +:+ b))
          = String (JS.lower_char c) (JS.toLowerCase a +:+ JS.toLowerCase b)).
  cbn [JS.toLowerCase]. f_equal. exact IH.
Qed.

Lemma prefix_app k b : String.prefix k (k +:+ b) = true.
Proof.
  induction k as [|c k IH]; [now destruct b|].
  change (String.prefix (String c k) (String c (k +:+ b)) = true).
  cbn [String.prefix]. destruct (ascii_dec c c); [exact IH | contradiction].
Qed.

Lemma includes_app k a b : JS.includes k (a +:+ k +:+ b) = true.
Proof.
  induction a as [|c a IH].
  - change (JS.includes k (k +:+ b) = true).
    destruct (k +:+ b) eqn:E; cbn [JS.includes];
      rewrite <- E, prefix_app; reflexivity.
  - change (JS.includes k (String c (a +:+ k +:+ b)) = true).
    cbn [JS.includes]. rewrite IH. apply orb_true_r.
Qed.

(** The keyword loop only ever adds, and adds 20 for a keyword it finds. *)
Lemma keyword_fold_ge content keywords acc :
  acc <= fold_left (fun score keyword =>
                      if JS.includes keyword content then score + 20 else score)
                   keywords acc.
Proof.
  revert acc. induction keywords as [|k ks IH]; intros acc; cbn; [lia|].
  destruct (JS.includes k content); [specialize (IH (acc + 20)) | specialize (IH acc)];
    lia.
Qed.

Lemma keyword_fold_found content keywords keyword acc :
  In keyword keywords -> JS.includes keyword content = true ->
  acc + 20 <= fold_left (fun score keyword =>
                           if JS.includes keyword content then score + 20 else score)
                        keywords acc.
Proof.
  revert acc. induction keywords as [|k ks IH]; intros acc Hin Hinc; [contradiction|].
  cbn. destruct Hin as [-> | Hin].
  - rewrite Hinc. apply keyword_fold_ge.
  - specialize (IH (if JS.includes k content then acc + 20 else acc) Hin Hinc).
    destruct (JS.includes k content); lia.
Qed.

Lemma patternScore_nonneg content : 0 <= patternScore content.
Proof.
  unfold patternScore, suspiciousPatterns. cbn [fold_left].
  destruct (JS.test_repeated content), (JS.test_special content),
    (JS.test_url content); lia.
Qed.

Lemma descriptionScore_nonneg description0 : 0 <= descriptionScore description0.
Proof.
  unfold descriptionScore. destruct description0 as [desc|]; [|lia].
  destruct (JS.truthy desc); [|lia].
  destruct (JS.length desc <? 10), (5000 <? JS.length desc),
    (JS.length desc <? 2 * JS.count_upper desc); lia.
Qed.

(** X3: a request whose body contains one of the spam keywords, written
    in any mix of upper and lower case, scores at least 20. *)
Theorem X3_keyword_in_any_case req keyword written before after :
  In keyword spamKeywords ->
  JS.toLowerCase written = keyword ->
  body_json req = before +:+ written +:+ after ->
  20 <= contentScore req.
Proof.
  intros Hin Hlower Hbody. unfold contentScore. cbn zeta.
  rewrite Hbody, !toLowerCase_app, Hlower.
  pose proof (keyword_fold_found
                (JS.toLowerCase before +:+ keyword +:+ JS.toLowerCase after)
                spamKeywords keyword 0 Hin (includes_app _ _ _)) as Hk.
  fold (keywordScore (JS.toLowerCase before +:+ keyword +:+ JS.toLowerCase after)) in Hk.
  pose proof (patternScore_nonneg
                (JS.toLowerCase before +:+ keyword +:+ JS.toLowerCase after)).
  pose proof (descriptionScore_nonneg (description req)).
  lia.
Qed.

Definition shouting : Request :=
  {| ip := Some "203.0.113.9"; remoteAddress := None; user_agent := None;
     route_path := None; path := "/";
     body_json := "title: Free CASINO chips tonight";
     description := None |}.

Lemma X3_keyword_in_any_case_witness : 20 <= contentScore shouting.
Proof.
  apply (X3_keyword_in_any_case shouting "casino" "CASINO"
           "title: Free " " chips tonight").
  - right. left. reflexivity.
  - reflexivity.
  - reflexivity.
Defined.

End RateLimitingMore.

(** ** The Express authentication middleware *)

Module AuthMiddlewareFacts.
Import Auth AuthMiddleware.

Lemma substring_all s : String.substring 0 (String.length s) s = s.
Proof. induction s as [|c s IH]; cbn; [reflexivity | now rewrite IH]. Qed.

(** What is left after a prefix is the slice at its length. *)
Lemma prefix_slice k h :
  String.prefix k h = true -> h = k +:+ slice (String.length k) h.
Proof.
  unfold slice. revert h. induction k as [|c k IH]; intros h Hp.
  - cbn. rewrite Nat.sub_0_r. now rewrite substring_all.
  - destruct h as [|d h]; [discriminate|]. cbn [String.prefix] in Hp.
    destruct (ascii_dec c d) as [->|]; [|discriminate].
    change (String d h = String d (k +:+ String.substring (String.length k)
                                            (String.length h - String.length k) h)).
    f_equal. now apply IH.
Qed.

Lemma slice_app k t : slice (String.length k) (k +:+ t) = t.
Proof.
  unfold slice. induction k as [|c k IH].
  - change (EmptyString +:+ t) with t. cbn [String.length].
    rewrite Nat.sub_0_r. apply substring_all.
  - change (String c k +:+ t) with (String c (k +:+ t)). cbn. exact IH.
Qed.

(** The header parses to a token exactly when it is [Bearer ] followed by
    the token; the scheme is matched case-sensitively. *)
Lemma bearerToken_spec authorization token :
  bearerToken authorization = Some token
  <-> authorization = Some ("Bearer " +:+ token).
Proof.
  unfold bearerToken. split.
  - destruct authorization as [h|]; [|discriminate].
    destruct (String.prefix "Bearer " h) eqn:Hp; [|discriminate].
    intros [= <-]. f_equal. exact (prefix_slice "Bearer " h Hp).
  - intros ->. rewrite (RateLimitingMore.prefix_app "Bearer " token).
    f_equal. exact (slice_app "Bearer " token).
Qed.

(** [requireAuth] passes a request on exactly for a registered user. *)
Lemma requireAuth_next lookup authorization user authenticated :
  requireAuth lookup authorization = Next user authenticated
  <-> exists token,
        authorization = Some ("Bearer " +:+ token)
        /\ token <> EmptyString
        /\ lookup token = JS.Returns (Some user)
        /\ isAnonymous user = false
        /\ authenticated = true.
Proof.
  unfold requireAuth. split.
  - destruct (bearerToken authorization) as [token|] eqn:Hb; [|discriminate].
    apply bearerToken_spec in Hb.
    destruct token as [|c token]; [discriminate|]. cbn [JS.truthy].
    destruct (lookup (String c token)) as [[u|]|] eqn:Hl; try discriminate.
    destruct (isAnonymous u) eqn:Ha; [discriminate|].
    intros [= <- <-]. exists (String c token). repeat split; auto; discriminate.
  - intros (token & -> & Hne & Hl & Ha & ->).
    rewrite (proj2 (bearerToken_spec _ token) eq_refl).
    destruct token; [contradiction|]. cbn [JS.truthy]. now rewrite Hl, Ha.
Qed.

(** X4: [requireAdmin] passes a request on exactly when its header is
    [Bearer ] followed by a non-empty token that resolves to a user who is
    not anonymous and is an admin; every other request is answered with
    401 or 403 and goes no further. *)
Theorem X4_requireAdmin_access lookup authorization :
  (forall user authenticated,
     requireAdmin lookup authorization = Next user authenticated
     <-> exists token,
           authorization = Some ("Bearer " +:+ token)
           /\ token <> EmptyString
           /\ lookup token = JS.Returns (Some user)
           /\ isAnonymous user = false
           /\ isAdmin user = true
           /\ authenticated = true)
  /\ (forall code error,
        requireAdmin lookup authorization = Status code error ->
        code = 401 \/ code = 403).
Proof.
  split.
  - intros user authenticated. unfold requireAdmin. split.
    + destruct (requireAuth lookup authorization) as [u a|] eqn:Hr; [|discriminate].
      destruct (isAdmin u) eqn:Hadmin; [|discriminate].
      intros [= <- <-]. apply requireAuth_next in Hr as (token & ? & ? & ? & ? & ?).
      exists token. repeat split; assumption.
    + intros (token & H1 & H2 & H3 & H4 & H5 & H6).
      rewrite (proj2 (requireAuth_next lookup authorization user authenticated));
        [now rewrite H5|].
      exists token. repeat split; assumption.
  - intros code error. unfold requireAdmin, requireAuth.
    destruct (bearerToken authorization) as [token|]; [|intros [= <- _]; now left].
    destruct (JS.truthy token); [|intros [= <- _]; now left].
    destruct (lookup token) as [[u|]|]; try (intros [= <- _]; now left).
    destruct (isAnonymous u); [intros [= <- _]; now left|].
    destruct (isAdmin u); [discriminate | intros [= <- _]; now right].
Qed.

Section Optional.

Variable sessionCountDefault : Z.

#[local] Abbreviation optionalAuth := (optionalAuth sessionCountDefault).

(** The anonymous paths of [optionalAuth] end in [next()] with an
    anonymous, unauthenticated user, or in the 500 of a database that
    answered neither call. *)
Lemma optionalAuth_cases lookup db1 db2 now new_id authorization ip ua rows :
  let r := optionalAuth lookup db1 db2 now new_id authorization ip ua rows in
  (exists token user,
     authorization = Some ("Bearer " +:+ token) /\ token <> EmptyString
     /\ lookup token = JS.Returns (Some user) /\ r = (rows, Next user true))
  \/ (exists user, snd r = Next user false
                   /\ isAnonymous user = true /\ isAdmin user = false
                   /\ (db1 = true \/ db2 = true))
  \/ (snd r = Status 500 "Authentication system error" /\ db2 = false).
Proof.
  cbn zeta. unfold AuthMiddleware.optionalAuth.
  destruct (AuthUtils.getOrCreateAnonymousUser sessionCountDefault now new_id
              ip ua rows) as [rows' anonymousUser].
  destruct (bearerToken authorization) as [token|] eqn:Hb.
  - apply bearerToken_spec in Hb.
    destruct token as [|c token]; cbn [JS.truthy].
    + destruct db1, db2; cbn; eauto 10.
    + destruct (lookup (String c token)) as [[user|]|] eqn:Hl.
      * left. exists (String c token), user. repeat split; auto; discriminate.
      * destruct db1, db2; cbn; eauto 10.
      * destruct db2; cbn; eauto 10.
  - destruct db1, db2; cbn; eauto 10.
Qed.

(** X5: [optionalAuth] never turns a request away for its credential.
    The only response it sends itself is the 500 of a database that does
    not answer the anonymous-user call of the [catch] block; when that call
    is answered the request always goes on. The request is marked
    authenticated exactly when its header is [Bearer ] followed by a
    non-empty token that resolves to a user, and then the user table is left
    alone; a request that goes on unauthenticated carries an anonymous user
    without admin rights. *)
Theorem X5_optionalAuth_never_rejects lookup db1 db2 now new_id
    authorization ip ua rows :
  let r := optionalAuth lookup db1 db2 now new_id authorization ip ua rows in
  (forall code error, snd r = Status code error -> code = 500 /\ db2 = false)
  /\ (db2 = true -> exists user authenticated, snd r = Next user authenticated)
  /\ (forall user,
        snd r = Next user true
        <-> exists token,
              authorization = Some ("Bearer " +:+ token) /\ token <> EmptyString
              /\ lookup token = JS.Returns (Some user))
  /\ (forall user, snd r = Next user true -> fst r = rows)
  /\ (forall user, snd r = Next user false ->
                   isAnonymous user = true /\ isAdmin user = false).
Proof.
  cbn zeta.
  destruct (optionalAuth_cases lookup db1 db2 now new_id authorization ip ua rows)
    as [(token & user & Hh & Hne & Hl & Hr)
       | [(user & Hr & Ha & Hadm & Hdb) | [Hr Hdb]]]; cbn zeta in *.
  - rewrite Hr. cbn [fst snd]. repeat split; try discriminate; eauto.
    + intros [= <-]. eauto.
    + intros (token' & Hh' & _ & Hl'). rewrite Hh in Hh'.
      injection Hh' as Hh'. change (token = token') in Hh'.
      subst token'. congruence.
  - rewrite Hr. repeat split; try discriminate; eauto;
      try (match goal with
           | H : Next _ _ = Next _ _ |- _ => injection H as <-; assumption
           end).
    intros (token & Hh & Hne & Hl).
    exfalso. revert Hr. unfold AuthMiddleware.optionalAuth.
    rewrite (proj2 (bearerToken_spec _ token) Hh).
    destruct token; [contradiction|]. cbn [JS.truthy]. rewrite Hl. discriminate.
  - rewrite Hr. repeat split; try discriminate; try congruence.
    intros (token & Hh & Hne & Hl).
    exfalso. revert Hr. unfold AuthMiddleware.optionalAuth.
    rewrite (proj2 (bearerToken_spec _ token) Hh).
    destruct token; [contradiction|]. cbn [JS.truthy]. rewrite Hl. discriminate.
Qed.

End Optional.

Definition visitor : list AuthUtils.UserRow :=
  [ {| AuthUtils.id := "anon-1"; AuthUtils.username := None;
       AuthUtils.email := None; AuthUtils.isAnonymous := true;
       AuthUtils.ipAddress := Some "203.0.113.7";
       AuthUtils.userAgent := Some "Mozilla/5.0";
       AuthUtils.createdAt := 1699990000000; AuthUtils.sessionCount := 1 |} ].

Lemma X5_optionalAuth_never_rejects_witness :
  exists user authenticated,
    snd (optionalAuth 1 (fun _ => JS.Throws) false true 1700000000000 "anon-2"
           (Some "Bearer expired.jwt.token") (Some "203.0.113.7") None visitor)
    = Next user authenticated.
Proof.
  apply (proj1 (proj2 (X5_optionalAuth_never_rejects 1 (fun _ => JS.Throws)
                         false true 1700000000000 "anon-2"
                         (Some "Bearer expired.jwt.token")
                         (Some "203.0.113.7") None visitor))).
  reflexivity.
Defined.

End AuthMiddlewareFacts.

(** ** Rooms: joining, leaving, typing *)

Module RoomFacts.
Import Db SocketService.

Lemma members_join socket room st r :
  members (join socket room st) r
  = if decide (r = room) then {[socket_id socket]} ∪ members st room
    else members st r.
Proof.
  unfold members, join. cbn [rooms set_rooms].
  destruct (decide (r = room)) as [->|Hne].
  - now rewrite lookup_insert_eq.
  - now rewrite lookup_insert_ne by congruence.
Qed.

Lemma members_leave socket room st r :
  members (leave socket room st) r
  = if decide (r = room) then members st room ∖ {[socket_id socket]}
    else members st r.
Proof.
  unfold members at 1. unfold leave. cbn [rooms set_rooms].
  fold (members st room).
  destruct (decide (members st room ∖ {[socket_id socket]} = ∅)) as [He|He];
    destruct (decide (r = room)) as [->|Hne].
  - rewrite lookup_delete_eq. now rewrite He.
  - now rewrite lookup_delete_ne by congruence.
  - now rewrite lookup_insert_eq.
  - now rewrite lookup_insert_ne by congruence.
Qed.

(** The events a socket received, over an extension of the log. *)
Lemma received_deliver out st sid :
  received (deliver out st) sid
  = received st sid
    ++ (snd <$> List.filter (fun d => String.eqb (fst d) sid) out).
Proof.
  unfold received, deliver. cbn [sent].
  now rewrite List.filter_app, fmap_app.
Qed.

(** An event for the members of a set reaches a socket once if it is one of
    them and not at all otherwise. *)
Lemma filter_fanout (e : Event) (ms : gset string) sid :
  snd <$> List.filter (fun d : string * Event => String.eqb (fst d) sid)
            ((fun m => (m, e)) <$> elements ms)
  = if decide (sid ∈ ms) then [e] else [].
Proof.
  assert (Hnd : NoDup (elements ms)) by apply NoDup_elements.
  assert (Hin : sid ∈ ms <-> sid ∈ elements ms) by (now rewrite elem_of_elements).
  destruct (decide (sid ∈ ms)) as [Hs|Hs]; rewrite Hin in Hs; clear Hin.
  - induction (elements ms) as [|m l IH]; [inversion Hs|].
    apply NoDup_cons in Hnd as [Hm Hnd]. cbn [fmap list_fmap List.filter fst].
    destruct (String.eqb m sid) eqn:E.
    + apply String.eqb_eq in E. subst m. cbn. f_equal.
      clear IH Hs. induction l as [|m l IH]; [reflexivity|].
      cbn [fmap list_fmap List.filter fst].
      destruct (String.eqb m sid) eqn:E.
      * apply String.eqb_eq in E. subst m. exfalso. apply Hm. left.
      * apply IH; [intros H; apply Hm; now right | now apply NoDup_cons in Hnd as [_ ?]].
    + apply String.eqb_neq in E. apply IH; [exact Hnd|].
      apply elem_of_cons in Hs as [->|Hs]; [contradiction | exact Hs].
  - induction (elements ms) as [|m l IH]; [reflexivity|].
    apply NoDup_cons in Hnd as [Hm Hnd]. cbn [fmap list_fmap List.filter fst].
    destruct (String.eqb m sid) eqn:E.
    + apply String.eqb_eq in E. subst m. exfalso. apply Hs. left.
    + apply IH; [exact Hnd | intros H; apply Hs; now right].
Qed.

Lemma received_emit socket e st sid :
  received (emit socket e st) sid
  = received st sid ++ (if String.eqb (socket_id socket) sid then [e] else []).
Proof.
  unfold emit. rewrite received_deliver. cbn [List.filter fst].
  now destruct (String.eqb (socket_id socket) sid).
Qed.

Lemma received_io_to_emit room e st sid :
  received (io_to_emit room e st) sid
  = received st sid ++ (if decide (sid ∈ members st room) then [e] else []).
Proof.
  unfold io_to_emit. now rewrite received_deliver, filter_fanout.
Qed.

Lemma received_socket_to_emit socket room e st sid :
  received (socket_to_emit socket room e st) sid
  = received st sid
    ++ (if decide (sid ∈ members st room ∖ {[socket_id socket]}) then [e] else []).
Proof.
  unfold socket_to_emit. now rewrite received_deliver, filter_fanout.
Qed.

(** A successful join changes the rooms as [socket.join] does. *)
Lemma members_handleJoinSighting socket sid st r :
  missingOrHidden (sightings st) sid = false ->
  members (handleJoinSighting socket sid st) r
  = if decide (r = sightingRoom sid)
    then {[socket_id socket]} ∪ members st (sightingRoom sid)
    else members st r.
Proof.
  intros Hvis. rewrite <- members_join.
  unfold handleJoinSighting. now rewrite Hvis.
Qed.

Lemma sightings_handleJoinSighting socket sid st :
  sightings (handleJoinSighting socket sid st) = sightings st.
Proof.
  unfold handleJoinSighting. now destruct (missingOrHidden (sightings st) sid).
Qed.

(** X6: joining the room of a visible sighting a second time changes no
    membership: after the first join the room holds the joiner and its
    former members, every other room is as before, and the second join
    leaves every room, and the size of this one, as the first left it. *)
Theorem X6_join_idempotent socket sid st :
  missingOrHidden (sightings st) sid = false ->
  let st1 := handleJoinSighting socket sid st in
  let st2 := handleJoinSighting socket sid st1 in
  members st1 (sightingRoom sid)
  = {[socket_id socket]} ∪ members st (sightingRoom sid)
  /\ (forall r, r <> sightingRoom sid -> members st1 r = members st r)
  /\ (forall r, members st2 r = members st1 r)
  /\ size (members st2 (sightingRoom sid)) = size (members st1 (sightingRoom sid)).
Proof.
  intros Hvis. cbn zeta.
  assert (Hvis1 : missingOrHidden (sightings (handleJoinSighting socket sid st)) sid
                  = false) by (now rewrite sightings_handleJoinSighting).
  assert (H2 : forall r, members (handleJoinSighting socket sid
                                    (handleJoinSighting socket sid st)) r
                         = members (handleJoinSighting socket sid st) r).
  { intros r. rewrite (members_handleJoinSighting _ _ _ r Hvis1).
    rewrite !(members_handleJoinSighting _ _ st _ Hvis).
    destruct (decide (r = sightingRoom sid)) as [->|]; [|reflexivity].
    destruct (decide (sightingRoom sid = sightingRoom sid)); [|contradiction].
    set_solver. }
  split; [|split; [|split]].
  - rewrite (members_handleJoinSighting _ _ _ _ Hvis).
    now destruct (decide (sightingRoom sid = sightingRoom sid)).
  - intros r Hr. rewrite (members_handleJoinSighting _ _ _ _ Hvis).
    now destruct (decide (r = sightingRoom sid)).
  - exact H2.
  - now rewrite H2.
Qed.

Lemma X6_join_idempotent_witness :
  let st1 := handleJoinSighting ChatFacts.sockC "s1" ChatFacts.st0 in
  let st2 := handleJoinSighting ChatFacts.sockC "s1" st1 in
  members st1 (sightingRoom "s1")
  = {[socket_id ChatFacts.sockC]} ∪ members ChatFacts.st0 (sightingRoom "s1")
  /\ (forall r, r <> sightingRoom "s1" -> members st1 r = members ChatFacts.st0 r)
  /\ (forall r, members st2 r = members st1 r)
  /\ size (members st2 (sightingRoom "s1")) = size (members st1 (sightingRoom "s1")).
Proof.
  apply (X6_join_idempotent ChatFacts.sockC "s1" ChatFacts.st0). reflexivity.
Defined.

(** X8: the events of a join. For a visible sighting every socket that
    was already in the room, the joiner apart, is sent one [user_joined];
    the joiner is sent the chat history and nothing else; sockets outside the
    room are sent nothing. For a missing or hidden sighting the joiner is
    sent the error [Sighting not found], nobody else is sent anything and no
    room changes. *)
Theorem X8_join_events socket sid st :
  let st1 := handleJoinSighting socket sid st in
  (missingOrHidden (sightings st) sid = false ->
   received st1 (socket_id socket)
   = received st (socket_id socket) ++ [chat_history sid (recentMessages st sid)]
   /\ forall other, other <> socket_id socket ->
        received st1 other
        = received st other
          ++ (if decide (other ∈ members st (sightingRoom sid))
              then [user_joined (id (user socket)) (displayName socket)
                      (socket_isAnonymous (user socket))]
              else []))
  /\ (missingOrHidden (sightings st) sid = true ->
      rooms st1 = rooms st
      /\ received st1 (socket_id socket)
         = received st (socket_id socket) ++ [error "Sighting not found"]
      /\ forall other, other <> socket_id socket ->
           received st1 other = received st other).
Proof.
  cbn zeta. unfold handleJoinSighting. split; intros Hvis; rewrite Hvis.
  - split.
    + rewrite received_emit, String.eqb_refl, received_socket_to_emit.
      destruct (decide (socket_id socket ∈ _)) as [Hin|_]; [set_solver|].
      now rewrite app_nil_r.
    + intros other Hother. rewrite received_emit.
      destruct (String.eqb (socket_id socket) other) eqn:E;
        [apply String.eqb_eq in E; congruence|].
      rewrite app_nil_r, received_socket_to_emit.
      f_equal. rewrite members_join.
      destruct (decide (sightingRoom sid = sightingRoom sid)); [|contradiction].
      destruct (decide (other ∈ members st (sightingRoom sid))) as [Hin|Hin];
        destruct (decide (other ∈ _)) as [Hin'|Hin']; try reflexivity;
        set_solver.
  - split; [reflexivity|]. split.
    + now rewrite received_emit, String.eqb_refl.
    + intros other Hother. rewrite received_emit.
      destruct (String.eqb (socket_id socket) other) eqn:E;
        [apply String.eqb_eq in E; congruence|].
      now rewrite app_nil_r.
Qed.

Lemma X8_join_events_witness :
  received (handleJoinSighting ChatFacts.sockC "s1" ChatFacts.st0) "sock-c"
  = received ChatFacts.st0 "sock-c"
    ++ [chat_history "s1" (recentMessages ChatFacts.st0 "s1")]
  /\ forall other, other <> "sock-c" ->
       received (handleJoinSighting ChatFacts.sockC "s1" ChatFacts.st0) other
       = received ChatFacts.st0 other
         ++ (if decide (other ∈ members ChatFacts.st0 (sightingRoom "s1"))
             then [user_joined "anonymous_sock-c" "Anonymous" true]
             else []).
Proof.
  apply (proj1 (X8_join_events ChatFacts.sockC "s1" ChatFacts.st0)). reflexivity.
Defined.

(** What [handleChatMessage] comes to: an error for the author alone, or
    a stored row announced to the room. *)
Lemma handleChatMessage_outcome now new_id author data st :
  (exists reason,
     handleChatMessage now new_id author data st = emit author (error reason) st)
  \/ (exists e rows,
        handleChatMessage now new_id author data st
        = io_to_emit (sightingRoom (data_sightingId data)) e
            (set_chatMessages rows st)).
Proof.
  unfold handleChatMessage.
  destruct (negb (JS.truthy (data_message data)) || _); [left; eauto|].
  destruct (1000 <? JS.length (data_message data)); [left; eauto|].
  destruct (missingOrHidden (sightings st) (data_sightingId data)); [left; eauto|].
  destruct (createChatMessage _ _ _ _ _ _ _ _ _) as [[rows row]|];
    [right; eauto | left; eauto].
Qed.

(** X7: leaving a room. The leaver is taken out of the room's members
    and of no other room; if it was a member the room has exactly one member
    fewer. Each remaining member is sent one [user_left], the leaver
    nothing. And whatever chat message another socket then sends to that
    sighting, the leaver is sent nothing for it. *)
Theorem X7_leave_room leaver sid st :
  let st1 := handleLeaveSighting leaver sid st in
  members st1 (sightingRoom sid)
  = members st (sightingRoom sid) ∖ {[socket_id leaver]}
  /\ (forall r, r <> sightingRoom sid -> members st1 r = members st r)
  /\ (socket_id leaver ∈ members st (sightingRoom sid) ->
      size (members st (sightingRoom sid))
      = S (size (members st1 (sightingRoom sid))))
  /\ (forall sid',
        received st1 sid'
        = received st sid'
          ++ (if decide (sid' ∈ members st (sightingRoom sid) ∖ {[socket_id leaver]})
              then [user_left (id (user leaver)) (displayName leaver)]
              else []))
  /\ (forall now new_id author data,
        data_sightingId data = sid ->
        socket_id author <> socket_id leaver ->
        received (handleChatMessage now new_id author data st1) (socket_id leaver)
        = received st1 (socket_id leaver)).
Proof.
  cbn zeta.
  assert (Hm : forall r, members (handleLeaveSighting leaver sid st) r
                         = if decide (r = sightingRoom sid)
                           then members st (sightingRoom sid) ∖ {[socket_id leaver]}
                           else members st r).
  { intros r. rewrite <- members_leave. reflexivity. }
  assert (Hroom : members (handleLeaveSighting leaver sid st) (sightingRoom sid)
                  = members st (sightingRoom sid) ∖ {[socket_id leaver]}).
  { rewrite Hm. now destruct (decide (sightingRoom sid = sightingRoom sid)). }
  split; [exact Hroom|]. split; [|split; [|split]].
  - intros r Hr. rewrite Hm. now destruct (decide (r = sightingRoom sid)).
  - intros Hin. rewrite Hroom, size_difference by set_solver.
    rewrite size_singleton.
    assert (size (members st (sightingRoom sid)) ≠ 0%nat).
    { intros Hz. apply size_empty_inv in Hz. set_solver. }
    lia.
  - intros sid'. unfold handleLeaveSighting.
    rewrite received_socket_to_emit. f_equal.
    rewrite members_leave.
    destruct (decide (sightingRoom sid = sightingRoom sid)); [|contradiction].
    destruct (decide (sid' ∈ _)) as [H1|H1];
      destruct (decide (sid' ∈ _)) as [H2|H2]; try reflexivity; set_solver.
  - intros now new_id author data Hdata Hauthor.
    destruct (handleChatMessage_outcome now new_id author data
                (handleLeaveSighting leaver sid st))
      as [[reason ->] | (e & rows & ->)].
    + rewrite received_emit.
      destruct (String.eqb (socket_id author) (socket_id leaver)) eqn:E;
        [apply String.eqb_eq in E; contradiction|].
      apply app_nil_r.
    + rewrite received_io_to_emit, Hdata.
      change (members (set_chatMessages rows (handleLeaveSighting leaver sid st))
                (sightingRoom sid))
        with (members (handleLeaveSighting leaver sid st) (sightingRoom sid)).
      rewrite Hroom.
      destruct (decide (socket_id leaver ∈ _)) as [Hin|_]; [set_solver|].
      rewrite app_nil_r. reflexivity.
Qed.

Lemma X7_leave_room_witness :
  size (members ChatFacts.st0 (sightingRoom "s1"))
  = S (size (members (handleLeaveSighting ChatFacts.sockA "s1" ChatFacts.st0)
               (sightingRoom "s1"))).
Proof.
  apply (proj1 (proj2 (proj2 (X7_leave_room ChatFacts.sockA "s1" ChatFacts.st0)))).
  refine (bool_decide_unpack _ _). vm_compute. exact I.
Defined.

(** X9: typing events are relayed and nothing more. A [typing_start] or
    [typing_stop] sends one [user_typing] or [user_stopped_typing] to every
    member of the room other than the sender, nothing to the sender and
    nothing to sockets outside the room, whether or not the sender itself is
    a member; rooms and tables are left as they are. *)
Theorem X9_typing_relay socket sid st :
  (forall other,
     received (handleTypingStart socket sid st) other
     = received st other
       ++ (if decide (other ∈ members st (sightingRoom sid) ∖ {[socket_id socket]})
           then [user_typing (id (user socket)) (displayName socket)
                   (socket_isAnonymous (user socket))]
           else []))
  /\ (forall other,
        received (handleTypingStop socket sid st) other
        = received st other
          ++ (if decide (other ∈ members st (sightingRoom sid) ∖ {[socket_id socket]})
              then [user_stopped_typing (id (user socket))]
              else []))
  /\ received (handleTypingStart socket sid st) (socket_id socket)
     = received st (socket_id socket)
  /\ received (handleTypingStop socket sid st) (socket_id socket)
     = received st (socket_id socket)
  /\ rooms (handleTypingStart socket sid st) = rooms st
  /\ rooms (handleTypingStop socket sid st) = rooms st
  /\ chatMessages (handleTypingStart socket sid st) = chatMessages st
  /\ chatMessages (handleTypingStop socket sid st) = chatMessages st.
Proof.
  unfold handleTypingStart, handleTypingStop.
  split; [intros other; apply received_socket_to_emit|].
  split; [intros other; apply received_socket_to_emit|].
  split; [|split; [|repeat split]].
  - rewrite received_socket_to_emit.
    destruct (decide (socket_id socket ∈ _)); [set_solver | apply app_nil_r].
  - rewrite received_socket_to_emit.
    destruct (decide (socket_id socket ∈ _)); [set_solver | apply app_nil_r].
Qed.

(** X10: the personal room. A registered connection is put in the room
    of its user, so a notification for that user reaches it exactly once,
    and no longer reaches it once it has disconnected. An anonymous
    connection is put in no room at all. *)
Theorem X10_personal_room socket st n :
  (socket_isAnonymous (user socket) = false ->
   let st1 := onConnection socket st in
   socket_id socket ∈ members st1 (userRoom (id (user socket)))
   /\ received (sendUserNotification (id (user socket)) n st1) (socket_id socket)
      = received st1 (socket_id socket) ++ [notification n]
   /\ received (sendUserNotification (id (user socket)) n (disconnect socket st1))
        (socket_id socket)
      = received st1 (socket_id socket))
  /\ (socket_isAnonymous (user socket) = true ->
      rooms (onConnection socket st) = rooms st).
Proof.
  split; intros Hanon; cbn zeta; unfold onConnection; rewrite Hanon;
    [|reflexivity].
  set (st1 := join socket _ _).
  assert (Hin : socket_id socket ∈ members st1 (userRoom (id (user socket)))).
  { unfold st1. rewrite members_join.
    destruct (decide (_ = _)); [set_solver | contradiction]. }
  split; [exact Hin|]. split.
  - unfold sendUserNotification. rewrite received_io_to_emit.
    now destruct (decide (socket_id socket ∈ _)).
  - unfold sendUserNotification. rewrite received_io_to_emit.
    change (members (disconnect socket st1) (userRoom (id (user socket))))
      with (members (leaveAll socket st1) (userRoom (id (user socket)))).
    rewrite PresenceFacts.members_leaveAll.
    destruct (decide (socket_id socket ∈ _)) as [Hbad|_]; [set_solver|].
    rewrite app_nil_r. reflexivity.
Qed.

Lemma X10_personal_room_witness :
  let st1 := onConnection NotifierFacts.sockD ChatFacts.st0 in
  socket_id NotifierFacts.sockD ∈ members st1 (userRoom "u2")
  /\ received (sendUserNotification "u2"
                 (NotificationService.payload NotifierFacts.s1 1) st1) "sock-d"
     = received st1 "sock-d"
       ++ [notification (NotificationService.payload NotifierFacts.s1 1)]
  /\ received (sendUserNotification "u2"
                 (NotificationService.payload NotifierFacts.s1 1)
                 (disconnect NotifierFacts.sockD st1)) "sock-d"
     = received st1 "sock-d".
Proof.
  apply (proj1 (X10_personal_room NotifierFacts.sockD ChatFacts.st0
                  (NotificationService.payload NotifierFacts.s1 1))).
  reflexivity.
Defined.

End RoomFacts.

(** ** More on the proximity notifier *)

Module NotifierMore.
Import Db SocketService NotificationService.

Section Pass.

Variable calculateDistance : Q -> Q -> Q -> Q -> Q.
Variable pushThrows : string -> bool.

(** The notifications a pass owes one socket: one for each selected
    candidate whose personal room the socket is in, in table order. *)
Definition owed (st : State) (sighting : Sighting) (sid : string) : list Event :=
  List.flat_map
    (fun u => if decide (sid ∈ members st (userRoom (user_id u)))
              then [notification
                      (payload sighting (distanceTo calculateDistance sighting u))]
              else [])
    (List.filter (selects calculateDistance sighting) (candidates (users st))).

Lemma received_pushes st sighting sid us :
  snd <$> List.filter (fun d : string * Event => String.eqb (fst d) sid)
            (List.flat_map (NotifierFacts.pushTo calculateDistance st sighting) us)
  = List.flat_map
      (fun u => if decide (sid ∈ members st (userRoom (user_id u)))
                then [notification
                        (payload sighting (distanceTo calculateDistance sighting u))]
                else []) us.
Proof.
  induction us as [|u us IH]; [reflexivity|].
  cbn [List.flat_map]. rewrite List.filter_app, fmap_app, IH. f_equal.
  unfold NotifierFacts.pushTo. apply RoomFacts.filter_fanout.
Qed.

(** X11: a pass in which no push raises. The count it returns is the
    number of selected candidates, a number of users read off the user table
    alone: how many connections each of them has plays no part. Every socket
    is sent one notification for each selected candidate whose personal room
    it is in, and nothing else; a selected user with several connections is
    notified on each of them and counted once. *)
Theorem X11_pass_counts_users sighting st :
  (forall v, v ∈ candidates (users st) ->
             selects calculateDistance sighting v = true ->
             pushThrows (user_id v) = false) ->
  let r := notifyNearbyUsers calculateDistance pushThrows sighting st in
  snd r = Z.of_nat (List.length (List.filter (selects calculateDistance sighting)
                                   (candidates (users st))))
  /\ (forall sid, received (fst r) sid = received st sid ++ owed st sighting sid)
  /\ rooms (fst r) = rooms st /\ users (fst r) = users st.
Proof.
  intros Hok. cbn zeta.
  rewrite (NotifierFacts.notifyNearbyUsers_no_throw calculateDistance pushThrows
             sighting st Hok).
  cbn [fst snd]. split; [reflexivity|]. split; [|split; reflexivity].
  intros sid. rewrite RoomFacts.received_deliver. f_equal.
  apply received_pushes.
Qed.

End Pass.

(** Bob with a second device. *)
Definition sockD2 : CustomSocket :=
  {| socket_id := "sock-d2";
     user := {| id := "u2"; socket_username := Some "bob";
                socket_isAnonymous := false; isAdmin := false |};
     isAuthenticated := true; address := "198.51.100.44" |}.

Definition stTwoDevices : State := onConnection sockD2 NotifierFacts.stNear.

Example two_devices_one_user :
  let r := notifyNearbyUsers NotifierFacts.threeKm NotifierFacts.noFailure
             NotifierFacts.s1 stTwoDevices in
  snd r = 2
  /\ List.length (received (fst r) "sock-d") = 1%nat
  /\ List.length (received (fst r) "sock-d2") = 1%nat.
Proof. vm_compute. repeat split. Qed.

Lemma X11_pass_counts_users_witness :
  let r := notifyNearbyUsers NotifierFacts.threeKm NotifierFacts.noFailure
             NotifierFacts.s1 stTwoDevices in
  snd r = Z.of_nat (List.length
                      (List.filter (selects NotifierFacts.threeKm NotifierFacts.s1)
                         (candidates (users stTwoDevices))))
  /\ (forall sid, received (fst r) sid
                  = received stTwoDevices sid
                    ++ owed NotifierFacts.threeKm stTwoDevices NotifierFacts.s1 sid)
  /\ rooms (fst r) = rooms stTwoDevices /\ users (fst r) = users stTwoDevices.
Proof.
  apply (X11_pass_counts_users NotifierFacts.threeKm NotifierFacts.noFailure
           NotifierFacts.s1 stTwoDevices).
  intros v _ _. reflexivity.
Defined.

End NotifierMore.

(** ** Listing and moderating chat messages *)

Module ChatModerationFacts.
Import Db ChatModeration.

(** Whatever [findMessages] returns is a visible message of the sighting. *)
Lemma findMessages_visible messages sid n m :
  m ∈ findMessages messages sid n ->
  m ∈ messages /\ sightingId m = sid /\ isHidden m = false.
Proof.
  unfold findMessages. intros Hm.
  apply (subseteq_take n) in Hm.
  rewrite merge_sort_Permutation in Hm.
  apply list_elem_of_In, filter_In in Hm as [Hin Hf].
  apply andb_true_iff in Hf as [Hs Hh].
  apply String.eqb_eq in Hs. apply negb_true_iff in Hh.
  split; [now apply list_elem_of_In | split; assumption].
Qed.

Lemma findMessage_Some rows id row :
  findMessage rows id = Some row ->
  row ∈ rows /\ message_id (fst row) = id.
Proof.
  unfold findMessage. intros H. apply find_some in H as [Hin Heq].
  apply String.eqb_eq in Heq. split; [now apply list_elem_of_In | exact Heq].
Qed.

(** X12: [deleteMessage] answers 200 exactly when there is a user, the
    message exists, and the user is its author or an admin; a message posted
    anonymously (no author id) can therefore be deleted by admins only. On
    200 exactly the rows of that id are gone and every other row is kept; on
    any other answer the tables are unchanged. The admin log is never
    written. *)
Theorem X12_deleteMessage messageId user t :
  let r := deleteMessage messageId user t in
  (snd r = Ok200 "Message deleted successfully"
   <-> exists u msg moderator,
         user = Some u
         /\ findMessage (chatMessages t) messageId = Some (msg, moderator)
         /\ (userId msg = Some (Auth.id u) \/ Auth.isAdmin u = true))
  /\ (snd r = Ok200 "Message deleted successfully" ->
      forall row, row ∈ chatMessages (fst r)
                  <-> row ∈ chatMessages t /\ message_id (fst row) <> messageId)
  /\ (snd r <> Ok200 "Message deleted successfully" -> fst r = t)
  /\ adminActions (fst r) = adminActions t.
Proof.
  cbn zeta. unfold deleteMessage.
  destruct user as [u|].
  2:{ repeat split; try discriminate; try reflexivity.
      intros (? & ? & ? & [=] & _). }
  destruct (findMessage (chatMessages t) messageId) as [[msg moderator]|] eqn:Hf.
  2:{ repeat split; try discriminate; try reflexivity.
      intros (? & ? & ? & _ & [=] & _). }
  destruct (negb (bool_decide (userId msg = Some (Auth.id u)))
            && negb (Auth.isAdmin u)) eqn:Hdeny.
  - apply andb_true_iff in Hdeny as [Hown Hadmin].
    apply negb_true_iff, bool_decide_eq_false in Hown.
    apply negb_true_iff in Hadmin.
    repeat split; try discriminate; try reflexivity.
    intros (u' & msg' & mod' & [= <-] & [= <- <-] & [Ho | Ha]); congruence.
  - cbn [fst snd chatMessages adminActions].
    split; [|split; [|split; [congruence | reflexivity]]].
    + split; [intros _|reflexivity].
      exists u, msg, moderator. split; [reflexivity|]. split; [reflexivity|].
      apply andb_false_iff in Hdeny as [Hown | Hadmin].
      * left. now apply negb_false_iff, bool_decide_eq_true in Hown.
      * right. now apply negb_false_iff in Hadmin.
    + intros _ row. rewrite !list_elem_of_In, filter_In, negb_true_iff.
      now rewrite String.eqb_neq.
Qed.

(** The rows of an id after [hideMessage] are hidden. *)
Lemma hidden_after_hide messageId admin (rows : list (ChatMessage * option string)) m :
  m ∈ fst <$> List.map (fun row =>
         if String.eqb (message_id (fst row)) messageId then
           ({| message_id := message_id (fst row); message := message (fst row);
               sightingId := sightingId (fst row); userId := userId (fst row);
               anonymousName := anonymousName (fst row);
               ipAddress := ipAddress (fst row); isHidden := true;
               createdAt := createdAt (fst row) |}, Some admin)
         else row) rows ->
  message_id m = messageId -> isHidden m = true.
Proof.
  intros Hin Hid. apply list_elem_of_fmap in Hin as (row' & -> & Hin).
  apply list_elem_of_In, in_map_iff in Hin as (row & <- & _).
  destruct (String.eqb (message_id (fst row)) messageId) eqn:E; [reflexivity|].
  apply String.eqb_neq in E. contradiction.
Qed.

(** X13: [hideMessage] answers 200 exactly for an admin and an existing
    message. From then on no listing of any sighting (the chat history of a
    join, the REST list) contains a message of that id, although the row is
    still stored: the table keeps its length, rows of other ids are
    untouched, and one [hide_message] action by that admin is appended to the
    admin log. On any other answer nothing changes. *)
Theorem X13_hideMessage messageId reason0 user t :
  let r := hideMessage messageId reason0 user t in
  (snd r = Ok200 "Message hidden successfully"
   <-> exists u, user = Some u /\ Auth.isAdmin u = true
                 /\ is_Some (findMessage (chatMessages t) messageId))
  /\ (snd r = Ok200 "Message hidden successfully" ->
      (forall sid n m,
         m ∈ findMessages (fst <$> chatMessages (fst r)) sid n ->
         message_id m <> messageId)
      /\ List.length (chatMessages (fst r)) = List.length (chatMessages t)
      /\ (forall row, message_id (fst row) <> messageId ->
                      (row ∈ chatMessages (fst r) <-> row ∈ chatMessages t))
      /\ exists entry u,
           user = Some u
           /\ adminActions (fst r) = adminActions t ++ [entry]
           /\ action entry = "hide_message" /\ adminId entry = Auth.id u)
  /\ (snd r <> Ok200 "Message hidden successfully" -> fst r = t).
Proof.
  cbn zeta. unfold hideMessage.
  destruct user as [u|].
  2:{ repeat split; try discriminate; try reflexivity.
      intros (? & [=] & _). }
  destruct (Auth.isAdmin u) eqn:Hadmin.
  2:{ repeat split; try discriminate; try reflexivity.
      intros (? & [= <-] & ? & _). congruence. }
  destruct (findMessage (chatMessages t) messageId) as [[msg moderator]|] eqn:Hf.
  2:{ repeat split; try discriminate; try reflexivity.
      intros (? & _ & _ & [? [=]]). }
  cbn [fst snd chatMessages adminActions].
  split; [|split; [|congruence]].
  - split; [intros _; exists u; eauto | reflexivity].
  - intros _. split; [|split; [|split]].
    + intros sid n m Hm Hid.
      apply findMessages_visible in Hm as (Hin & _ & Hvis).
      pose proof (hidden_after_hide messageId (Auth.id u) _ m Hin Hid). congruence.
    + apply length_map.
    + intros row Hrow. rewrite !list_elem_of_In, in_map_iff. split.
      * intros (row0 & Heq & Hin).
        destruct (String.eqb (message_id (fst row0)) messageId) eqn:E.
        -- subst row. cbn in Hrow. apply String.eqb_eq in E. contradiction.
        -- now subst row0.
      * intros Hin. exists row. split; [|exact Hin].
        apply String.eqb_neq in Hrow. now rewrite Hrow.
    + eexists. exists u. repeat split.
Qed.

(** Whatever page [findPage] returns, its rows are visible messages of the
    sighting. *)
Lemma findPage_visible messages sid skip take found m :
  findPage messages sid skip take = Some found ->
  m ∈ found ->
  m ∈ messages /\ sightingId m = sid /\ isHidden m = false.
Proof.
  unfold findPage. intros Hfound Hm.
  set (sorted := merge_sort newerFirst _) in Hfound.
  assert (Hin : m ∈ sorted).
  { destruct (skip <? 0); [discriminate|].
    destruct (0 <=? take); injection Hfound as <-.
    - now apply (subseteq_take (Z.to_nat take)), (subseteq_drop (Z.to_nat skip)) in Hm.
    - apply list_elem_of_In, in_rev, list_elem_of_In in Hm.
      apply (subseteq_take (Z.to_nat (- take))), (subseteq_drop (Z.to_nat skip)) in Hm.
      now apply list_elem_of_In, in_rev, list_elem_of_In in Hm. }
  unfold sorted in Hin. rewrite merge_sort_Permutation in Hin.
  apply list_elem_of_In, filter_In in Hin as [Hin Hf].
  apply andb_true_iff in Hf as [Hs Hh].
  apply String.eqb_eq in Hs. apply negb_true_iff in Hh.
  split; [now apply list_elem_of_In | split; assumption].
Qed.

(** X14: with no [page] and no [limit] in the query, the REST list of a
    visible sighting is the chat history a socket is sent on joining it: the
    same messages in the same order, oldest first. *)
Theorem X14_default_list_is_join_history st sid :
  missingOrHidden (SocketService.sightings st) sid = false ->
  exists pagination id0 title0,
    getSightingMessages sid None None (SocketService.sightings st)
      (SocketService.users st) (SocketService.chatMessages st)
    = Messages
        (format (SocketService.users st)
           <$> (fst <$> SocketService.recentMessages st sid))
        pagination id0 title0
    /\ page pagination = 1 /\ limit pagination = 50.
Proof.
  unfold missingOrHidden, getSightingMessages. intros Hvis.
  destruct (findSighting (SocketService.sightings st) sid) as [s|]; [|discriminate].
  rewrite Hvis. rewrite HistoryFacts.fst_recentMessages.
  assert (Hrev : forall l : list ChatMessage,
             List.rev (format (SocketService.users st) <$> l)
             = format (SocketService.users st) <$> List.rev l).
  { induction l as [|m l IH]; [reflexivity|].
    cbn [fmap list_fmap List.rev] in *. now rewrite fmap_app, IH. }
  cbn [default fmap option_fmap option_map].
  change (parseInt "1") with (Some 1). change (parseInt "50") with (Some 50).
  cbn [fmap option_fmap option_map].
  change (findPage (SocketService.chatMessages st) sid ((1 - 1) * Z.min 50 100)
            (Z.min 50 100))
    with (Some (findMessages (SocketService.chatMessages st) sid 50)).
  cbv beta iota.
  eexists. eexists. eexists. split; [rewrite Hrev; reflexivity|].
  split; reflexivity.
Qed.

Lemma X14_default_list_is_join_history_witness :
  exists pagination id0 title0,
    getSightingMessages "s1" None None (SocketService.sightings HistoryFacts.stChat)
      (SocketService.users HistoryFacts.stChat)
      (SocketService.chatMessages HistoryFacts.stChat)
    = Messages
        (format (SocketService.users HistoryFacts.stChat)
           <$> (fst <$> SocketService.recentMessages HistoryFacts.stChat "s1"))
        pagination id0 title0
    /\ page pagination = 1 /\ limit pagination = 50.
Proof.
  apply (X14_default_list_is_join_history HistoryFacts.stChat "s1"). reflexivity.
Defined.

(** X15: whatever [page] and [limit] a client asks for, a list that is
    returned reports a limit of at most 100; when that limit is not negative
    the list holds at most that many, so at most 100, messages; and every
    message in it is a stored message of the sighting that is not hidden. *)
Theorem X15_list_is_capped sid page0 limit0 sightings0 users0 messages
    listed pagination id0 title0 :
  getSightingMessages sid page0 limit0 sightings0 users0 messages
  = Messages listed pagination id0 title0 ->
  limit pagination <= 100
  /\ (0 <= limit pagination ->
      Z.of_nat (List.length listed) <= limit pagination)
  /\ forall f, f ∈ listed ->
       exists m, m ∈ messages /\ f = format users0 m
                 /\ sightingId m = sid /\ isHidden m = false.
Proof.
  unfold getSightingMessages.
  destruct (findSighting sightings0 sid) as [s|]; [|discriminate].
  destruct (sighting_isHidden s); [discriminate|].
  destruct (parseInt (default "1" page0)) as [p|]; [|discriminate].
  destruct (parseInt (default "50" limit0)) as [l|]; [|discriminate].
  cbn [fmap option_fmap option_map].
  destruct (findPage messages sid ((p - 1) * Z.min l 100) (Z.min l 100))
    as [found|] eqn:Hfound; [|discriminate].
  intros [= <- <- _ _]. cbn [limit].
  split; [lia|]. split.
  - intros Hpos. rewrite length_rev, length_fmap.
    unfold findPage in Hfound. destruct (_ <? 0); [discriminate|].
    destruct (0 <=? Z.min l 100) eqn:E; [|apply Z.leb_gt in E; lia].
    injection Hfound as <-.
    pose proof (firstn_le_length (Z.to_nat (Z.min l 100))
                  (List.skipn (Z.to_nat ((p - 1) * Z.min l 100))
                     (merge_sort newerFirst
                        (List.filter (fun m => String.eqb (sightingId m) sid
                                               && negb (isHidden m)) messages)))).
    lia.
  - intros f Hf. apply list_elem_of_In, in_rev, list_elem_of_In in Hf.
    apply list_elem_of_fmap in Hf as (m & -> & Hm).
    destruct (findPage_visible _ _ _ _ _ m Hfound Hm) as (H1 & H2 & H3).
    exists m. repeat split; assumption.
Qed.

Lemma X15_list_is_capped_witness :
  exists listed pagination,
    getSightingMessages "s1" (Some "1") (Some "5000")
      (SocketService.sightings HistoryFacts.stChat)
      (SocketService.users HistoryFacts.stChat)
      (SocketService.chatMessages HistoryFacts.stChat)
    = Messages listed pagination "s1" "Lights over the bay"
    /\ limit pagination <= 100
    /\ (0 <= limit pagination ->
        Z.of_nat (List.length listed) <= limit pagination).
Proof.
  eexists. eexists. split; [vm_compute; reflexivity|].
  pose proof (X15_list_is_capped "s1" (Some "1") (Some "5000")
                (SocketService.sightings HistoryFacts.stChat)
                (SocketService.users HistoryFacts.stChat)
                (SocketService.chatMessages HistoryFacts.stChat)
                _ _ "s1" "Lights over the bay" eq_refl) as (H1 & H2 & _).
  split; [exact H1 | exact H2].
Defined.

End ChatModerationFacts.

(** ** Position and preferences over REST *)

Module AuthControllerFacts.
Import Db SocketService AuthController.

Lemma asNumber_Some v q : asNumber v = Some q <-> v = JNumber q.
Proof. destruct v; cbn; split; congruence. Qed.

(** X16: the REST [updateLocation] answers 200 exactly when there is a
    user (anonymous or not), both coordinates are numbers, the latitude is in
    [-90, 90] and the longitude in [-180, 180], and the user has a row; the
    row then holds the new position and the time of the update. On every
    other answer the user table is unchanged. *)
Theorem X16_rest_updateLocation now latitude longitude user users0 :
  let r := updateLocation now latitude longitude user users0 in
  (statusOf (snd r) = 200
   <-> exists u lat lon,
         user = Some u /\ latitude = JNumber lat /\ longitude = JNumber lon
         /\ LocationFacts.inRange lat lon
         /\ is_Some (findUser users0 (Auth.id u)))
  /\ (forall u lat lon,
        statusOf (snd r) = 200 -> user = Some u ->
        latitude = JNumber lat -> longitude = JNumber lon ->
        exists row, findUser (fst r) (Auth.id u) = Some row
                    /\ lastLatitude row = Some lat /\ lastLongitude row = Some lon
                    /\ lastLocationUpdate row = Some now)
  /\ (statusOf (snd r) <> 200 -> fst r = users0).
Proof.
  cbn zeta. unfold updateLocation.
  destruct user as [u|].
  2:{ repeat split; try discriminate; try reflexivity.
      intros (? & ? & ? & [=] & _). }
  destruct (asNumber latitude) as [lat|] eqn:Hlat.
  2:{ repeat split; try discriminate; try reflexivity.
      intros (? & la & ? & _ & -> & _). discriminate. }
  destruct (asNumber longitude) as [lon|] eqn:Hlon.
  2:{ repeat split; try discriminate; try reflexivity.
      intros (? & ? & lo & _ & _ & -> & _). discriminate. }
  apply asNumber_Some in Hlat, Hlon. subst latitude longitude.
  fold (outOfRange lat lon).
  destruct (outOfRange lat lon) eqn:Hrange.
  { repeat split; try discriminate; try reflexivity.
    intros (? & la & lo & _ & [= <-] & [= <-] & Hin & _).
    apply LocationFacts.outOfRange_false in Hin. congruence. }
  apply LocationFacts.outOfRange_false in Hrange.
  destruct (findUser users0 (Auth.id u)) as [row|] eqn:Hrow.
  - destruct (LocationFacts.findUser_updateLocation users0 (Auth.id u) lat lon now
                row Hrow) as (rows & row' & Hup & Hfind & H1 & H2 & H3 & _).
    rewrite Hup. cbn [fst snd statusOf]. split; [|split].
    + split; [intros _|reflexivity]. exists u, lat, lon. rewrite Hrow. eauto 10.
    + intros u0 la lo _ [= <-] [= <-] [= <-]. exists row'. auto.
    + congruence.
  - unfold Db.updateLocation. rewrite Hrow. cbn [fst snd statusOf].
    repeat split; try discriminate; try reflexivity.
    intros (u0 & ? & ? & [= <-] & _ & _ & _ & [? Hsome]). congruence.
Qed.

Section Agreement.

Variable calculateDistance : Q -> Q -> Q -> Q -> Q.
Variable findNearbySync : list Sighting -> Q -> Q -> Q -> Z -> list Sighting.

(** X17: the socket and the REST endpoint store the same. For a
    connection that is not anonymous, [update_location] leaves the user
    table exactly as the REST [updateLocation] leaves it for the user of that
    id and the same coordinates; for an anonymous connection it leaves the
    table as it was, whatever REST would store. *)
Theorem X17_socket_agrees_with_rest now socket data st u :
  Auth.id u = id (user socket) ->
  let st' := handleLocationUpdate calculateDistance findNearbySync now socket data st in
  let rest := updateLocation now (data_latitude data) (data_longitude data)
                (Some u) (users st) in
  (socket_isAnonymous (user socket) = false -> users st' = fst rest)
  /\ (socket_isAnonymous (user socket) = true -> users st' = users st).
Proof.
  intros Hid. cbn zeta. unfold handleLocationUpdate, updateLocation.
  split; intros Hanon; rewrite Hanon; [|reflexivity].
  destruct (asNumber (data_latitude data)) as [lat|];
    [|reflexivity].
  destruct (asNumber (data_longitude data)) as [lon|]; [|reflexivity].
  fold (outOfRange lat lon). destruct (outOfRange lat lon); [reflexivity|].
  rewrite Hid.
  destruct (Db.updateLocation (users st) (id (user socket)) lat lon now)
    as [rows|]; [|reflexivity].
  cbn [fst users emit deliver].
  destruct (LocationFacts.checkNearbyNotifications_spec calculateDistance
              findNearbySync now socket lat lon (set_users rows st))
    as (extra & Husers & _).
  cbn zeta in Husers. rewrite Husers. reflexivity.
Qed.

End Agreement.

Definition aliceAuth : Auth.AuthUser :=
  {| Auth.id := "u1"; Auth.username := Some "alice"; Auth.email := None;
     Auth.isAnonymous := false; Auth.isAdmin := false |}.

Lemma X17_socket_agrees_with_rest_witness :
  users (handleLocationUpdate LocationFacts.noDistance LocationFacts.noneNearby
           1700000000000 ChatFacts.sockA LocationFacts.inRangeData ChatFacts.st0)
  = fst (updateLocation 1700000000000
           (data_latitude LocationFacts.inRangeData)
           (data_longitude LocationFacts.inRangeData)
           (Some aliceAuth) (users ChatFacts.st0)).
Proof.
  apply (proj1 (X17_socket_agrees_with_rest LocationFacts.noDistance
                  LocationFacts.noneNearby 1700000000000 ChatFacts.sockA
                  LocationFacts.inRangeData ChatFacts.st0 aliceAuth eq_refl)).
  reflexivity.
Defined.

(** A stored radius the notifier can work with. *)
Definition radiusOk (u : User) : Prop :=
  (0 < notificationRadius u /\ notificationRadius u <= 1000)%Q.

Lemma validRadius_Some v r :
  validRadius v = Some r -> v = JNumber r /\ (0 < r /\ r <= 1000)%Q.
Proof.
  unfold validRadius. destruct (asNumber v) as [q|] eqn:Hv; [|discriminate].
  apply asNumber_Some in Hv.
  destruct (JS.lt 0 q && Qle_bool q 1000) eqn:E; [|discriminate].
  intros [= <-]. apply andb_true_iff in E as [Hlt Hle].
  split; [exact Hv|]. split.
  - unfold JS.lt in Hlt. apply negb_true_iff in Hlt.
    apply Qnot_le_lt. intros Hc. apply Qle_bool_iff in Hc. congruence.
  - now apply Qle_bool_iff.
Qed.

Lemma validRadius_None q :
  ~ (0 < q /\ q <= 1000)%Q -> validRadius (JNumber q) = None.
Proof.
  intros Hbad. destruct (validRadius (JNumber q)) as [r|] eqn:E; [|reflexivity].
  apply validRadius_Some in E as [[= <-] Hok]. contradiction.
Qed.

(** An update by id rewrites the row [findUser] returns. *)
Lemma findUser_map users0 uid (f : User -> User) row :
  (forall u, user_id (f u) = user_id u) ->
  findUser users0 uid = Some row ->
  findUser (List.map (fun u => if String.eqb (user_id u) uid then f u else u) users0)
    uid = Some (f row).
Proof.
  intros Hid. unfold findUser.
  induction users0 as [|v rest IH]; [discriminate|].
  cbn [List.map List.find].
  destruct (String.eqb (user_id v) uid) eqn:Hv.
  - rewrite Hid, Hv. now intros [= <-].
  - rewrite Hv. exact IH.
Qed.

(** X18: notification preferences. The endpoint answers 200 only for a
    registered user with a row and at least one usable field; the row then
    takes the [enableNotifications] flag if it is a boolean and the radius if
    it is a number in (0, 1000], and keeps the stored value of a field that
    is not usable. So a radius outside (0, 1000] sent together with a boolean
    flag is answered 200 and silently ignored; and if every stored radius is
    in (0, 1000] before a call, every stored radius is in (0, 1000] after it.
    On every other answer the table is unchanged. *)
Theorem X18_preferences enable radius user users0 :
  let r := updateNotificationPreferences enable radius user users0 in
  (Forall radiusOk users0 -> Forall radiusOk (fst r))
  /\ (statusOf (snd r) = 200 ->
      exists u row,
        user = Some u /\ Auth.isAnonymous u = false
        /\ (is_Some (asBoolean enable) \/ is_Some (validRadius radius))
        /\ findUser users0 (Auth.id u) = Some row
        /\ findUser (fst r) (Auth.id u)
           = Some (applyPreferences (asBoolean enable) (validRadius radius) row))
  /\ (forall q b u row,
        radius = JNumber q -> ~ (0 < q /\ q <= 1000)%Q -> enable = JBoolean b ->
        user = Some u -> Auth.isAnonymous u = false ->
        findUser users0 (Auth.id u) = Some row ->
        statusOf (snd r) = 200
        /\ exists row', findUser (fst r) (Auth.id u) = Some row'
                        /\ notificationRadius row' = notificationRadius row
                        /\ enableNotifications row' = b)
  /\ (statusOf (snd r) <> 200 -> fst r = users0).
Proof.
  cbn zeta.
  assert (Hkeep : forall e rad uid,
             Forall radiusOk users0 ->
             (forall q, rad = Some q -> (0 < q /\ q <= 1000)%Q) ->
             Forall radiusOk
               (List.map (fun row => if String.eqb (user_id row) uid
                                     then applyPreferences e rad row else row)
                  users0)).
  { intros e rad uid Hall Hrad. rewrite Forall_forall in *. intros row' Hin.
    apply list_elem_of_In, in_map_iff in Hin as (row & <- & Hin).
    apply list_elem_of_In in Hin.
    destruct (String.eqb (user_id row) uid); [|now apply Hall].
    unfold radiusOk, applyPreferences. cbn [notificationRadius].
    destruct rad as [q|]; cbn [default]; [now apply Hrad | now apply Hall]. }
  split; [|split; [|split]].
  - intros Hall. unfold updateNotificationPreferences.
    destruct user as [u|]; [|exact Hall].
    destruct (Auth.isAnonymous u); [exact Hall|].
    destruct (asBoolean enable) as [b|], (validRadius radius) as [q|] eqn:Hq;
      try exact Hall;
      (destruct (findUser users0 (Auth.id u)); [|exact Hall]);
      cbn [fst]; apply Hkeep; try exact Hall;
      intros q' [= <-]; try discriminate;
      now apply validRadius_Some in Hq as [_ ?].
  - unfold updateNotificationPreferences.
    destruct user as [u|]; [|discriminate].
    destruct (Auth.isAnonymous u) eqn:Hanon; [discriminate|].
    destruct (asBoolean enable) as [b|] eqn:Hb,
             (validRadius radius) as [q|] eqn:Hq; try discriminate;
      (destruct (findUser users0 (Auth.id u)) as [row|] eqn:Hrow; [|discriminate]);
      intros _; exists u, row; cbn [fst];
      (split; [reflexivity|]); (split; [exact Hanon|]);
      (split; [eauto|]); (split; [exact Hrow|]);
      apply (findUser_map users0 (Auth.id u) (applyPreferences _ _) row);
      (reflexivity || assumption).
  - intros q b u row -> Hbad -> -> Hanon Hrow.
    unfold updateNotificationPreferences. rewrite Hanon.
    rewrite (validRadius_None q Hbad). cbn [asBoolean]. rewrite Hrow.
    cbn [fst snd statusOf]. split; [reflexivity|].
    exists (applyPreferences (Some b) None row). split; [|split; reflexivity].
    apply (findUser_map users0 (Auth.id u) (applyPreferences (Some b) None) row);
      (reflexivity || assumption).
  - unfold updateNotificationPreferences.
    destruct user as [u|]; [|reflexivity].
    destruct (Auth.isAnonymous u); [reflexivity|].
    destruct (asBoolean enable), (validRadius radius); try reflexivity;
      (destruct (findUser users0 (Auth.id u)); [|reflexivity]);
      cbn [snd statusOf]; congruence.
Qed.

End AuthControllerFacts.

(** ** The text of stored chat messages *)

Module StoredTextFacts.
Import Db SocketService.

Lemma length_list_ascii s : List.length (list_ascii_of_string s) = String.length s.
Proof. induction s as [|c s IH]; cbn; [reflexivity | now rewrite IH]. Qed.

Lemma length_of_list_ascii l : String.length (string_of_list_ascii l) = List.length l.
Proof. induction l as [|c l IH]; cbn; [reflexivity | now rewrite IH]. Qed.

Lemma length_rev_string s : String.length (JS.rev s) = String.length s.
Proof.
  unfold JS.rev. now rewrite length_of_list_ascii, length_rev, length_list_ascii.
Qed.

Lemma length_drop_space s : (String.length (JS.drop_space s) <= String.length s)%nat.
Proof.
  induction s as [|c s IH]; cbn; [lia|].
  destruct (JS.is_space c); cbn; lia.
Qed.

(** Trimming never lengthens a text. *)
Lemma length_trim s : JS.length (JS.trim s) <= JS.length s.
Proof.
  unfold JS.length, JS.trim. rewrite length_rev_string.
  pose proof (length_drop_space (JS.rev (JS.drop_space s))).
  rewrite length_rev_string in H.
  pose proof (length_drop_space s). lia.
Qed.

(** A text of nothing but white space. *)
Fixpoint blank (s : string) : bool :=
  match s with
  | EmptyString => true
  | String c r => JS.is_space c && blank r
  end.

Lemma trim_blank s : blank s = true -> JS.trim s = EmptyString.
Proof.
  intros Hb. unfold JS.trim.
  assert (Hd : JS.drop_space s = EmptyString).
  { induction s as [|c s IH]; [reflexivity|]. cbn in *.
    apply andb_true_iff in Hb as [Hc Hs]. rewrite Hc. now apply IH. }
  rewrite Hd. reflexivity.
Qed.

(** A text the chat is meant to hold: not empty, at most 1000 characters. *)
Definition okText (m : ChatMessage) : Prop :=
  1 <= JS.length (message m) <= 1000.

(** X19: over the socket no empty and no oversized text is ever stored:
    if every stored message has between 1 and 1000 characters, so has every
    stored message after any [chat_message], whoever sends it and whatever it
    holds; and the handler never removes or rewrites a stored message. *)
Theorem X19_socket_stores_sane_text now new_id socket data st :
  let st' := handleChatMessage now new_id socket data st in
  (Forall okText (chatMessages st) -> Forall okText (chatMessages st'))
  /\ exists added, chatMessages st' = chatMessages st ++ added
                   /\ (List.length added <= 1)%nat.
Proof.
  cbn zeta. unfold handleChatMessage.
  destruct (negb (JS.truthy (data_message data))
            || (JS.length (JS.trim (data_message data)) =? 0)) eqn:Hempty.
  { split; [auto|]. exists []. rewrite app_nil_r. cbn. split; [reflexivity | lia]. }
  destruct (1000 <? JS.length (data_message data)) eqn:Hlong.
  { split; [auto|]. exists []. rewrite app_nil_r. cbn. split; [reflexivity | lia]. }
  destruct (missingOrHidden (sightings st) (data_sightingId data)).
  { split; [auto|]. exists []. rewrite app_nil_r. cbn. split; [reflexivity | lia]. }
  apply orb_false_iff in Hempty as [_ Hne]. apply Z.eqb_neq in Hne.
  apply Z.ltb_ge in Hlong.
  assert (Hok : 1 <= JS.length (JS.trim (data_message data)) <= 1000).
  { pose proof (length_trim (data_message data)).
    unfold JS.length in *. lia. }
  unfold createChatMessage.
  destruct (socket_isAnonymous (user socket)).
  - cbn [chatMessages io_to_emit deliver set_chatMessages]. split.
    + intros Hall. apply Forall_app. split; [exact Hall|]. now repeat constructor.
    + eexists [_]. split; [reflexivity | cbn; lia].
  - destruct (findUser (users st) (id (user socket))).
    + cbn [chatMessages io_to_emit deliver set_chatMessages]. split.
      * intros Hall. apply Forall_app. split; [exact Hall|]. now repeat constructor.
      * eexists [_]. split; [reflexivity | cbn; lia].
    + split; [auto|]. exists []. rewrite app_nil_r. cbn. split; [reflexivity | lia].
Qed.

(** X20: the REST endpoint does store an empty text. A message of
    between 1 and 1000 characters that are all white space passes the
    validation, which measures the text as sent; it is then trimmed and
    stored as the empty string, and the request is answered 201. The socket
    handler answers the same text with [Message cannot be empty]. *)
Theorem X20_rest_stores_blank_text now new_id req sightings0 users0 rows :
  StoredTextFacts.blank (ChatController.body_message req) = true ->
  1 <= JS.length (ChatController.body_message req) <= 1000 ->
  ChatController.body_anonymousName req = None ->
  missingOrHidden sightings0 (ChatController.params_sightingId req) = false ->
  (exists u, ChatController.req_user req = Some u /\ Auth.isAnonymous u = true) ->
  (exists row author,
     ChatController.createMessage now new_id req sightings0 users0 rows
     = (rows ++ [row], ChatController.Created201 row author)
     /\ message row = EmptyString)
  /\ forall socket st sid,
       handleChatMessage now new_id socket
         {| data_sightingId := sid;
            data_message := ChatController.body_message req;
            data_anonymousName := None |} st
       = emit socket (error "Message cannot be empty") st.
Proof.
  intros Hblank Hlen Hname Hvis (u & Hu & Hanon).
  pose proof (trim_blank _ Hblank) as Htrim. split.
  - unfold ChatController.createMessage, ChatController.chatMessageValidation.
    rewrite Hname, Hu, Hvis, Hanon.
    destruct ((1 <=? JS.length (ChatController.body_message req))
              && (JS.length (ChatController.body_message req) <=? 1000)) eqn:E.
    2:{ apply andb_false_iff in E as [E|E];
          [apply Z.leb_gt in E | apply Z.leb_gt in E]; lia. }
    cbn [app]. unfold createChatMessage. rewrite Htrim.
    eexists. eexists. split; reflexivity.
  - intros socket st sid. unfold handleChatMessage. cbn [data_message].
    rewrite Htrim. cbn. now rewrite orb_true_r.
Qed.

Definition blankRequest : ChatController.Request :=
  {| ChatController.params_sightingId := "s1";
     ChatController.body_message := "   ";
     ChatController.body_anonymousName := None;
     ChatController.req_user :=
       Some {| Auth.id := "anon-1"; Auth.username := None; Auth.email := None;
               Auth.isAnonymous := true; Auth.isAdmin := false |};
     ChatController.req_ip := "203.0.113.7" |}.

Lemma X20_rest_stores_blank_text_witness :
  exists row author,
    ChatController.createMessage 1700000000000 "m9" blankRequest
      (sightings ChatFacts.st0) (users ChatFacts.st0) []
    = ([] ++ [row], ChatController.Created201 row author)
    /\ message row = EmptyString.
Proof.
  apply (X20_rest_stores_blank_text 1700000000000 "m9" blankRequest
           (sightings ChatFacts.st0) (users ChatFacts.st0) []).
  - reflexivity.
  - split; vm_compute; discriminate.
  - reflexivity.
  - reflexivity.
  - eexists. split; reflexivity.
Defined.

End StoredTextFacts.

(** ** Anonymous identities *)

Module AuthUtilsFacts.
Import AuthUtils.

(** One step of the search for the newest row. *)
Definition pick (best : option UserRow) (row : UserRow) : option UserRow :=
  match best with
  | Some b => if createdAt b <? createdAt row then Some row else Some b
  | None => Some row
  end.

Definition below (b : UserRow) (best : option UserRow) : Prop :=
  match best with
  | Some a => createdAt a < createdAt b
  | None => True
  end.

Lemma newest_fold rows : newest rows = fold_left pick rows None.
Proof. reflexivity. Qed.

Lemma pick_below b best row :
  below b best -> createdAt row < createdAt b -> below b (pick best row).
Proof.
  destruct best as [a|]; cbn; [|auto].
  destruct (createdAt a <? createdAt row); cbn; auto.
Qed.

Lemma fold_below b pre best :
  below b best -> Forall (fun x => createdAt x < createdAt b) pre ->
  below b (fold_left pick pre best).
Proof.
  revert best. induction pre as [|x pre IH]; intros best Hbest Hpre; [exact Hbest|].
  apply Forall_cons in Hpre as [Hx Hpre]. cbn [fold_left].
  apply IH; [now apply pick_below | exact Hpre].
Qed.

Lemma fold_keeps b post :
  Forall (fun x => createdAt x <= createdAt b) post ->
  fold_left pick post (Some b) = Some b.
Proof.
  induction post as [|x post IH]; intros Hpost; [reflexivity|].
  apply Forall_cons in Hpost as [Hx Hpost]. cbn [fold_left pick].
  destruct (createdAt b <? createdAt x) eqn:E; [apply Z.ltb_lt in E; lia|].
  now apply IH.
Qed.

(** The newest row is the first one that no row before it matches and no
    row after it beats. *)
Lemma newest_found b pre post :
  Forall (fun x => createdAt x < createdAt b) pre ->
  Forall (fun x => createdAt x <= createdAt b) post ->
  newest (pre ++ b :: post) = Some b.
Proof.
  intros Hpre Hpost. rewrite newest_fold, fold_left_app. cbn [fold_left].
  pose proof (fold_below b pre None I Hpre) as Hb.
  destruct (fold_left pick pre None) as [a|]; cbn [pick below] in *.
  - destruct (createdAt a <? createdAt b) eqn:E; [|apply Z.ltb_ge in E; lia].
    now apply fold_keeps.
  - now apply fold_keeps.
Qed.

Lemma fold_split rows best b :
  fold_left pick rows best = Some b ->
  (best = Some b /\ Forall (fun x => createdAt x <= createdAt b) rows)
  \/ exists pre post,
       rows = pre ++ b :: post /\ below b best
       /\ Forall (fun x => createdAt x < createdAt b) pre
       /\ Forall (fun x => createdAt x <= createdAt b) post.
Proof.
  revert best. induction rows as [|x rows IH]; intros best Hfold.
  - left. split; [exact Hfold | constructor].
  - cbn [fold_left] in Hfold. destruct (IH _ Hfold) as [[Hp Hall] | (pre & post & -> & Hbel & Hpre & Hpost)].
    + destruct best as [a|]; cbn [pick] in Hp.
      * destruct (createdAt a <? createdAt x) eqn:E; injection Hp as ->.
        -- right. exists [], rows. apply Z.ltb_lt in E. repeat split; auto.
        -- left. apply Z.ltb_ge in E. split; [reflexivity|]. now constructor.
      * injection Hp as ->. right. exists [], rows. repeat split; auto.
    + right. exists (x :: pre), post. split; [reflexivity|].
      destruct best as [a|]; cbn [pick below] in *.
      * destruct (createdAt a <? createdAt x) eqn:E; cbn [below] in Hbel.
        -- apply Z.ltb_lt in E.
           repeat split; auto; try lia; constructor; auto; lia.
        -- apply Z.ltb_ge in E.
           repeat split; auto; try lia; constructor; auto; lia.
      * repeat split; auto.
Qed.

Lemma newest_split rows b :
  newest rows = Some b ->
  exists pre post,
    rows = pre ++ b :: post
    /\ Forall (fun x => createdAt x < createdAt b) pre
    /\ Forall (fun x => createdAt x <= createdAt b) post.
Proof.
  intros H. rewrite newest_fold in H.
  destruct (fold_split rows None b H) as [[[=] _] | (pre & post & ? & _ & ? & ?)].
  eauto.
Qed.

Lemma newest_None rows : newest rows = None -> rows = [].
Proof.
  destruct rows as [|x rows]; [reflexivity|]. rewrite newest_fold. cbn [fold_left pick].
  intros H. exfalso. revert H. generalize x. induction rows as [|y rows IH]; intros z.
  - discriminate.
  - cbn [fold_left pick]. destruct (createdAt z <? createdAt y); apply IH.
Qed.

(** The newest row stays the newest of any selection that keeps it. *)
Lemma newest_filter (p : UserRow -> bool) rows b :
  newest rows = Some b -> p b = true -> newest (List.filter p rows) = Some b.
Proof.
  intros Hn Hp. apply newest_split in Hn as (pre & post & -> & Hpre & Hpost).
  rewrite List.filter_app. cbn [List.filter]. rewrite Hp.
  apply newest_found.
  - rewrite Forall_forall in *. intros x Hx.
    apply list_elem_of_In, filter_In in Hx as [Hx _]. apply Hpre. now apply list_elem_of_In.
  - rewrite Forall_forall in *. intros x Hx.
    apply list_elem_of_In, filter_In in Hx as [Hx _]. apply Hpost. now apply list_elem_of_In.
Qed.

(** A rewrite of rows that keeps their creation time keeps the newest. *)
Lemma newest_map (g : UserRow -> UserRow) rows :
  (forall x, createdAt (g x) = createdAt x) ->
  newest (List.map g rows) = g <$> newest rows.
Proof.
  intros Hg. rewrite !newest_fold.
  change (@None UserRow) with (g <$> @None UserRow) at 1.
  generalize (@None UserRow). induction rows as [|x rows IH]; intros best;
    [reflexivity|].
  cbn [List.map fold_left]. rewrite <- IH. f_equal.
  destruct best as [a|]; cbn; [|reflexivity].
  rewrite !Hg. now destruct (createdAt a <? createdAt x).
Qed.

Definition bump (uid : string) (row : UserRow) : UserRow :=
  if String.eqb (id row) uid then
    {| id := id row; username := username row; email := email row;
       isAnonymous := isAnonymous row; ipAddress := ipAddress row;
       userAgent := userAgent row; createdAt := createdAt row;
       sessionCount := sessionCount row + 1 |}
  else row.

Lemma incrementSessionCount_bump uid rows :
  incrementSessionCount uid rows = List.map (bump uid) rows.
Proof. reflexivity. Qed.

Lemma bump_keeps uid row :
  id (bump uid row) = id row /\ createdAt (bump uid row) = createdAt row
  /\ forall now ip, recentAnonymousFilter now ip (bump uid row)
                    = recentAnonymousFilter now ip row.
Proof. unfold bump. destruct (String.eqb (id row) uid); repeat split. Qed.

Lemma filter_bump now ip uid rows :
  List.filter (recentAnonymousFilter now ip) (List.map (bump uid) rows)
  = List.map (bump uid) (List.filter (recentAnonymousFilter now ip) rows).
Proof.
  induction rows as [|x rows IH]; [reflexivity|]. cbn [List.map List.filter].
  rewrite (proj2 (proj2 (bump_keeps uid x))).
  destruct (recentAnonymousFilter now ip x); cbn [List.map]; now rewrite IH.
Qed.

(** A row that is recent later was recent before. *)
Lemma recent_earlier now1 now2 ip row :
  now1 <= now2 ->
  recentAnonymousFilter now2 ip row = true ->
  recentAnonymousFilter now1 ip row = true.
Proof.
  unfold recentAnonymousFilter. intros Hle.
  rewrite !andb_true_iff, !Z.leb_le. intros [[? ?] ?]. repeat split; auto; lia.
Qed.

Lemma filter_later now1 now2 ip rows :
  now1 <= now2 ->
  List.filter (recentAnonymousFilter now2 ip) rows
  = List.filter (recentAnonymousFilter now2 ip)
      (List.filter (recentAnonymousFilter now1 ip) rows).
Proof.
  intros Hle. induction rows as [|x rows IH]; [reflexivity|]. cbn [List.filter].
  destruct (recentAnonymousFilter now2 ip x) eqn:E2.
  - rewrite (recent_earlier now1 now2 ip x Hle E2). cbn [List.filter].
    now rewrite E2, IH.
  - destruct (recentAnonymousFilter now1 ip x); cbn [List.filter];
      [rewrite E2|]; exact IH.
Qed.

Section Reuse.

Variable sessionCountDefault : Z.

#[local] Abbreviation getOrCreate :=
  (getOrCreateAnonymousUser sessionCountDefault).

(** X21: anonymous identities are reused. A request from an address is
    given an anonymous user of that address; a later request from the same
    address, made while that user is at most a day old, is given the user of
    the same id, and no row is added to the user table for it. *)
Theorem X21_anonymous_identity_reused now1 now2 id1 id2 a ua1 ua2 rows :
  now1 <= now2 ->
  now2 - DAY <= createdAt (snd (getOrCreate now1 id1 (Some a) ua1 rows)) ->
  let first := getOrCreate now1 id1 (Some a) ua1 rows in
  let second := getOrCreate now2 id2 (Some a) ua2 (fst first) in
  id (snd second) = id (snd first)
  /\ List.length (fst second) = List.length (fst first)
  /\ isAnonymous (snd first) = true
  /\ ipAddress (snd first) = Some a.
Proof.
  intros Hle. cbn zeta.
  destruct (getOrCreateAnonymousUser sessionCountDefault now1 id1 (Some a) ua1 rows)
    as [rows1 u] eqn:Hcall.
  cbn [fst snd]. intros Hrecent.
  unfold getOrCreateAnonymousUser in Hcall.
  destruct (newest (List.filter (recentAnonymousFilter now1 (Some a)) rows))
    as [u1|] eqn:Hfirst.
  - injection Hcall as <- <-.
    assert (Hin : u1 ∈ List.filter (recentAnonymousFilter now1 (Some a)) rows).
    { apply newest_split in Hfirst as (pre & post & -> & _).
      apply elem_of_app. right. left. }
    apply list_elem_of_In, filter_In in Hin as [_ Hf1].
    assert (Hf2 : recentAnonymousFilter now2 (Some a) u1 = true).
    { unfold recentAnonymousFilter in *.
      apply andb_true_iff in Hf1 as [Hf1 _]. rewrite Hf1.
      now apply Z.leb_le. }
    unfold getOrCreateAnonymousUser.
    rewrite incrementSessionCount_bump, filter_bump.
    rewrite (filter_later now1 now2 (Some a) rows Hle).
    rewrite (newest_map (bump (id u1)));
      [|intros x; apply bump_keeps].
    rewrite (newest_filter _ _ u1 Hfirst Hf2).
    cbn [fmap option_fmap option_map fst snd].
    unfold recentAnonymousFilter in Hf1.
    apply andb_true_iff in Hf1 as [Hf1 _]. apply andb_true_iff in Hf1 as [Hanon Hip].
    apply bool_decide_eq_true in Hip.
    split; [apply bump_keeps|]. split; [|split; assumption].
    now rewrite incrementSessionCount_bump, !length_map.
  - apply newest_None in Hfirst.
    unfold createAnonymousUser in Hcall. injection Hcall as <- <-.
    cbn [createdAt] in Hrecent.
    unfold getOrCreateAnonymousUser.
    rewrite List.filter_app, (filter_later now1 now2 (Some a) rows Hle), Hfirst.
    cbn [List.filter app].
    assert (Hnew : recentAnonymousFilter now2 (Some a)
                     {| id := id1; username := None; email := None;
                        isAnonymous := true; ipAddress := Some a;
                        userAgent := ua1; createdAt := now1;
                        sessionCount := sessionCountDefault |} = true).
    { unfold recentAnonymousFilter. cbn [isAnonymous ipAddress createdAt].
      rewrite bool_decide_eq_true_2 by reflexivity. now apply Z.leb_le. }
    rewrite Hnew. cbn [newest fold_left fst snd id isAnonymous ipAddress].
    split; [reflexivity|]. split; [|split; reflexivity].
    now rewrite incrementSessionCount_bump, length_map.
Qed.

End Reuse.

Lemma X21_anonymous_identity_reused_witness :
  let first := getOrCreateAnonymousUser 1 1700000000000 "anon-2"
                 (Some "203.0.113.7") None AuthMiddlewareFacts.visitor in
  let second := getOrCreateAnonymousUser 1 1700003600000 "anon-3"
                  (Some "203.0.113.7") None (fst first) in
  id (snd second) = id (snd first)
  /\ List.length (fst second) = List.length (fst first)
  /\ isAnonymous (snd first) = true
  /\ ipAddress (snd first) = Some "203.0.113.7".
Proof.
  apply (X21_anonymous_identity_reused 1 1700000000000 1700003600000
           "anon-2" "anon-3" "203.0.113.7" None None AuthMiddlewareFacts.visitor).
  - lia.
  - vm_compute. discriminate.
Defined.

End AuthUtilsFacts.

(** ** Announcements *)

Module AnnouncementFacts.
Import SocketService Announcements.

(** Every socket is registered under its own id. *)
Definition registered (st : State) : Prop :=
  forall key socket, connectedUsers st !! key = Some socket -> socket_id socket = key.

Lemma registered_onConnection socket st :
  registered st -> registered (onConnection socket st).
Proof.
  intros Hreg key s. unfold onConnection.
  destruct (socket_isAnonymous (user socket));
    cbn [connectedUsers set_connectedUsers join set_rooms];
    (destruct (decide (key = socket_id socket)) as [->|Hne];
     [rewrite lookup_insert_eq; now intros [= <-]
     |rewrite lookup_insert_ne by congruence; apply Hreg]).
Qed.

Lemma registered_disconnect socket st :
  registered st -> registered (disconnect socket st).
Proof.
  intros Hreg key s. unfold disconnect, handleDisconnect, leaveAll.
  cbn [connectedUsers set_connectedUsers set_rooms].
  destruct (decide (key = socket_id socket)) as [->|Hne];
    [now rewrite lookup_delete_eq | rewrite lookup_delete_ne by congruence; apply Hreg].
Qed.

(** One event per key: what a socket finds for itself in a fan-out over
    distinct keys. *)
Lemma filter_keys {A} (e : A) (keys : list string) sid :
  NoDup keys ->
  List.filter (fun d : string * A => String.eqb (fst d) sid) ((fun k => (k, e)) <$> keys)
  = if decide (sid ∈ keys) then [(sid, e)] else [].
Proof.
  induction keys as [|k keys IH]; intros Hnd; [reflexivity|].
  apply NoDup_cons in Hnd as [Hk Hnd]. cbn [fmap list_fmap List.filter fst].
  rewrite (IH Hnd). destruct (String.eqb k sid) eqn:E.
  - apply String.eqb_eq in E. subst k.
    destruct (decide (sid ∈ keys)); [contradiction|].
    destruct (decide (sid ∈ sid :: keys)) as [|Hbad]; [reflexivity|].
    exfalso. apply Hbad. left.
  - apply String.eqb_neq in E.
    destruct (decide (sid ∈ keys)) as [Hin|Hin];
      destruct (decide (sid ∈ k :: keys)) as [Hin'|Hin']; try reflexivity.
    + exfalso. apply Hin'. now right.
    + exfalso. apply elem_of_cons in Hin' as [->|]; [congruence | contradiction].
Qed.

(** X22: a system announcement reaches every connected socket exactly
    once, anonymous ones included, and nobody else, and the number returned
    is the number of sockets it was sent to. A socket is among them from its
    connection on and no longer after its disconnect. *)
Theorem X22_announcement_reaches_all now title message data st :
  registered st ->
  let r := sendSystemAnnouncement now title message data (connectedUsers st) in
  snd r = Z.of_nat (size (connectedUsers st))
  /\ List.length (fst r) = size (connectedUsers st)
  /\ (forall sid,
        List.length (List.filter (fun d => String.eqb (fst d) sid) (fst r))
        = if decide (is_Some (connectedUsers st !! sid)) then 1%nat else 0%nat)
  /\ (forall socket,
        is_Some (connectedUsers (onConnection socket st) !! socket_id socket)
        /\ connectedUsers (disconnect socket st) !! socket_id socket = None).
Proof.
  intros Hreg. cbn zeta. unfold sendSystemAnnouncement. cbn [fst snd].
  split; [reflexivity|]. split; [|split].
  - rewrite length_fmap. apply length_map_to_list.
  - intros sid.
    set (ann := {| announcement_type := _ |}).
    assert (Hkeys : (fun entry : string * CustomSocket => (socket_id (snd entry), ann))
                      <$> map_to_list (connectedUsers st)
                    = (fun k => (k, ann)) <$> (map_to_list (connectedUsers st)).*1).
    { rewrite <- list_fmap_compose. apply list_fmap_ext.
      intros i [k s] Hi. cbn. f_equal. apply Hreg.
      apply elem_of_map_to_list. eapply list_elem_of_lookup_2. exact Hi. }
    rewrite Hkeys, filter_keys by apply NoDup_fst_map_to_list.
    destruct (decide (sid ∈ (map_to_list (connectedUsers st)).*1)) as [Hin|Hin];
      destruct (decide (is_Some (connectedUsers st !! sid))) as [Hs|Hs];
      try reflexivity; exfalso.
    + apply Hs. apply list_elem_of_fmap in Hin as ([k s] & -> & Hin).
      apply elem_of_map_to_list in Hin. eauto.
    + apply Hin. destruct Hs as [s Hs]. apply list_elem_of_fmap.
      exists (sid, s). split; [reflexivity|]. now apply elem_of_map_to_list.
  - intros socket. split.
    + unfold onConnection. destruct (socket_isAnonymous (user socket));
        cbn [connectedUsers set_connectedUsers join set_rooms];
        rewrite lookup_insert_eq; eauto.
    + unfold disconnect, handleDisconnect.
      cbn [connectedUsers set_connectedUsers]. apply lookup_delete_eq.
Qed.

Definition twoSockets : State :=
  onConnection ChatFacts.sockB (onConnection ChatFacts.sockA ChatFacts.initial).

Lemma registered_twoSockets : registered twoSockets.
Proof.
  do 2 apply registered_onConnection. intros key socket.
  cbn [connectedUsers ChatFacts.initial]. now rewrite lookup_empty.
Qed.

Lemma X22_announcement_reaches_all_witness :
  registered twoSockets
  /\ snd (sendSystemAnnouncement 1700000000000 "Maintenance" "Back at noon"
            JUndefined (connectedUsers twoSockets)) = 2.
Proof.
  split; [exact registered_twoSockets|].
  exact (proj1 (X22_announcement_reaches_all 1700000000000 "Maintenance"
                  "Back at noon" JUndefined twoSockets registered_twoSockets)).
Defined.

Example announcement_id :
  announcement_id
    <$> (snd <$> fst (sendSystemAnnouncement 1700000000000 "Maintenance"
                        "Back at noon" JUndefined (connectedUsers twoSockets)))
  = ["announcement_1700000000000"; "announcement_1700000000000"].
Proof. vm_compute. reflexivity. Qed.

End AnnouncementFacts.
